(** * scripts/generate-favicons.py: the favicon generation pipeline

    The script checks that ImageMagick's [convert] answers, checks that
    [public/favicon.svg] exists, rasterises it at 48, 96, 192 and 32 pixels
    and bundles the 32 and 48 pixel rasters into [public/favicon.ico].

    Everything the script does to the outside world goes through
    [subprocess.run], [os.path.exists], [print] and [sys.exit].  The host
    (file system and external executables) is an interface, [Host]; the
    script is embedded in a small state-and-exception monad, [Py], over it. *)

From stdpp Require Import gmap strings list fin_maps pretty.
From Stdlib Require Import ZArith.

Open Scope string_scope.
Open Scope list_scope.
Open Scope Z_scope.

(** ** The host: file system and external executables *)

(** What starting an external command yields: the executable could not be
    found ([ENOENT], Python's [FileNotFoundError]), or it ran, returned an
    exit status and left the host in a new state.  These are the two
    failures the script names; the other ways the operating system can
    refuse to start a process (a [PermissionError], say) are outside this
    model, and nothing below is a statement about them. *)
Inductive Spawned (World : Type) : Type :=
  | ENOENT
  | Exited (returncode : Z) (w' : World).
Arguments ENOENT {World}.
Arguments Exited {World} returncode w'.

(** [files w] is the file system of host state [w] (path to contents);
    [spawn cmd w] runs the argument vector [cmd] to completion;
    [CalledProcessError_str] is Python's [str()] of a [CalledProcessError],
    library text the script only interpolates into a message. *)
Class Host (World : Type) : Type := {
  files : World → gmap string (list Byte.byte);
  spawn : list string → World → Spawned World;
  CalledProcessError_str : list string → Z → string
}.

(** ** The Python fragment the script uses *)

Inductive exn : Type :=
  | CalledProcessError (cmd : list string) (returncode : Z)
  | FileNotFoundError (filename : string)
  | SystemExit (code : Z).

Inductive Result (A : Type) : Type :=
  | Normal (a : A)
  | Raised (e : exn).
Arguments Normal {A} a.
Arguments Raised {A} e.

(** One entry of the log of external invocations: the argument vector and
    the exit status, [None] when the executable could not be started. *)
Record event : Type := Event { ev_cmd : list string; ev_status : option Z }.

(** Interpreter state: the host, what [print] wrote so far (one entry per
    call), and the log of external invocations, oldest first.  The log is
    bookkeeping of the model; the script cannot read it. *)
Record State (World : Type) : Type := MkState {
  world : World;
  stdout : list string;
  spawned : list event
}.
Arguments MkState {World} world stdout spawned.
Arguments world {World} s.
Arguments stdout {World} s.
Arguments spawned {World} s.

Definition Py (World A : Type) : Type := State World → Result A * State World.

Section Python.

Context {World : Type} `{Host World}.

(** Sequencing: an exception raised by the first statement skips the
    rest.  With these instances [m1 ;; m2] and [x ← m1; m2] are stdpp's
    notations. *)
#[export] Instance Py_ret : MRet (Py World) := λ A a s, (Normal a, s).

#[export] Instance Py_bind : MBind (Py World) := λ A B k m s,
  match m s with
  | (Normal a, s') => k a s'
  | (Raised e, s') => (Raised e, s')
  end.

Definition raise {A} (e : exn) : Py World A := λ s, (Raised e, s).

(** [try: body except <handles>: handler] *)
Definition try_except {A} (body : Py World A) (handles : exn → bool)
    (handler : exn → Py World A) : Py World A :=
  λ s, match body s with
       | (Normal a, s') => (Normal a, s')
       | (Raised e, s') => if handles e then handler e s' else (Raised e, s')
       end.

Definition print (line : string) : Py World unit :=
  λ s, (Normal (), MkState (world s) (stdout s ++ [line]) (spawned s)).

Definition sys_exit {A} (code : Z) : Py World A := raise (SystemExit code).

Definition os_path_exists (path : string) : Py World bool :=
  λ s, (Normal (bool_decide (is_Some (files (world s) !! path))), s).

(** [subprocess.run(cmd, check=True)]: the call blocks until the command
    is over; a missing executable raises [FileNotFoundError], a non-zero
    exit status raises [CalledProcessError].  ([capture_output] only
    redirects the command's own console output, which is not modelled; so
    is any other [OSError] of the real call, which no handler of the
    script would catch.) *)
Definition subprocess_run (cmd : list string) : Py World unit :=
  λ s, match spawn cmd (world s) with
       | ENOENT =>
           (Raised (FileNotFoundError (default "" (head cmd))),
            MkState (world s) (stdout s) (spawned s ++ [Event cmd None]))
       | Exited rc w' =>
           let s' := MkState w' (stdout s) (spawned s ++ [Event cmd (Some rc)]) in
           if rc =? 0 then (Normal (), s')
           else (Raised (CalledProcessError cmd rc), s')
       end.

(** [for x in xs: body] *)
Fixpoint for_each {A} (xs : list A) (body : A → Py World unit) : Py World unit :=
  match xs with
  | [] => mret ()
  | x :: xs' => body x ;; for_each xs' body
  end.

(** [f"{e}"] for an exception object; the script only formats
    [CalledProcessError]s. *)
Definition exn_str (e : exn) : string :=
  match e with
  | CalledProcessError cmd rc => CalledProcessError_str cmd rc
  | FileNotFoundError filename =>
      "[Errno 2] No such file or directory: '" +:+ filename +:+ "'"
  | SystemExit code => pretty code
  end.

End Python.

Definition is_CalledProcessError (e : exn) : bool :=
  match e with CalledProcessError _ _ => true | _ => false end.

Definition is_CalledProcessError_or_FileNotFoundError (e : exn) : bool :=
  match e with
  | CalledProcessError _ _ | FileNotFoundError _ => true
  | SystemExit _ => false
  end.

(** [str(n)] of a Python integer *)
Definition str (n : Z) : string := pretty n.

Definition newline : string := String (Ascii.ascii_of_nat 10) "".

(** ** The script *)

Section Script.

Context {World : Type} `{Host World}.

(** [check_dependencies] (lines 11-17) *)
Definition check_dependencies : Py World unit :=
  try_except
    (subprocess_run ["convert"; "--version"])
    is_CalledProcessError_or_FileNotFoundError
    (λ _,
       print "Error: ImageMagick is not installed." ;;
       print "Install it with: brew install imagemagick" ;;
       sys_exit 1).

(** [generate_png_favicons] (lines 19-79) is one function; its locals
    [svg_file] and [sizes] and its four parts (the loop body, the legacy
    conversion, the container, the whole) are named here. *)
Definition svg_file : string := "public/favicon.svg".

Definition sizes : list Z := [48; 96; 192].

(** Body of the loop over [sizes] (lines 30-45). *)
Definition generate_size (size : Z) : Py World unit :=
  let output_file := "public/favicon-" +:+ str size +:+ "x" +:+ str size +:+ ".png" in
  let cmd := ["convert";
              "-background"; "none";
              "-density"; "300";
              "-resize"; str size +:+ "x" +:+ str size;
              svg_file;
              output_file] in
  try_except
    (subprocess_run cmd ;;
     print ("✓ Generated " +:+ output_file))
    is_CalledProcessError
    (λ e,
       print ("✗ Failed to generate " +:+ output_file +:+ ": " +:+ exn_str e) ;;
       sys_exit 1).

(** The legacy 32x32 conversion, after the loop (lines 47-63). *)
Definition generate_legacy : Py World unit :=
  let output_file := "public/favicon-32x32.png" in
  let cmd := ["convert";
              "-background"; "none";
              "-density"; "300";
              "-resize"; "32x32";
              svg_file;
              output_file] in
  try_except
    (subprocess_run cmd ;;
     print ("✓ Generated " +:+ output_file))
    is_CalledProcessError
    (λ e,
       print ("✗ Failed to generate " +:+ output_file +:+ ": " +:+ exn_str e) ;;
       sys_exit 1).

(** The container [favicon.ico] (lines 65-79). *)
Definition generate_ico : Py World unit :=
  print (newline +:+ "Generating favicon.ico with multiple sizes...") ;;
  let ico_cmd := ["convert";
                  "public/favicon-32x32.png";
                  "public/favicon-48x48.png";
                  "public/favicon.ico"] in
  try_except
    (subprocess_run ico_cmd ;;
     print "✓ Generated public/favicon.ico")
    is_CalledProcessError
    (λ e,
       print ("✗ Failed to generate favicon.ico: " +:+ exn_str e) ;;
       sys_exit 1).

Definition generate_png_favicons : Py World unit :=
  present ← os_path_exists svg_file;
  (if negb present
   then print ("Error: " +:+ svg_file +:+ " not found") ;; sys_exit 1
   else mret ()) ;;
  for_each sizes generate_size ;;
  (* Also create a standard 32x32 for legacy support *)
  generate_legacy ;;
  (* Create favicon.ico with multiple sizes *)
  generate_ico.

(** The [if __name__ == "__main__":] block (lines 81-89). *)
Definition main : Py World unit :=
  check_dependencies ;;
  generate_png_favicons ;;
  print (newline +:+ "✅ All favicons generated successfully!") ;;
  print (newline +:+ "Next steps:") ;;
  print "1. Update layout.tsx to reference the new PNG files" ;;
  print "2. Deploy your changes" ;;
  print "3. Request re-indexing in Google Search Console" ;;
  print "4. Wait 1-3 weeks for Google to update".

(** The process started on host state [w]. *)
Definition run (w : World) : Result unit * State World :=
  main (MkState w [] []).

(** Exit status of the interpreter: 0 when the module body runs to its
    end, the argument of [sys.exit] (the script only ever passes 1), and 1
    for any other uncaught exception. *)
Definition exit_status (r : Result unit) : Z :=
  match r with
  | Normal _ => 0
  | Raised (SystemExit code) => code
  | Raised _ => 1
  end.

End Script.

(** ** The command lines, as the interface description words them *)

(** [<tool> --version] *)
Definition probe_cmd : list string := ["convert"; "--version"].

(** [<tool> -background none -density 300 -resize <N>x<N> <input.svg> <output-N.png>] *)
Definition raster_path (N : Z) : string :=
  "public/favicon-" +:+ str N +:+ "x" +:+ str N +:+ ".png".

Definition conversion_cmd (N : Z) : list string :=
  ["convert"; "-background"; "none"; "-density"; "300";
   "-resize"; str N +:+ "x" +:+ str N; "public/favicon.svg"; raster_path N].

(** [<tool> <output-32.png> <output-48.png> <output.ico>] *)
Definition container_cmd : list string :=
  ["convert"; "public/favicon-32x32.png"; "public/favicon-48x48.png";
   "public/favicon.ico"].

Arguments conversion_cmd : simpl never.
Arguments raster_path : simpl never.

(** The four target dimensions, in the order [generate_png_favicons] reaches
    them: the loop over [sizes], then the legacy size. *)
Definition target_dimensions : list Z := [48; 96; 192; 32].

(** The five fixed output paths. *)
Definition output_paths : list string :=
  ["public/favicon-48x48.png"; "public/favicon-96x96.png";
   "public/favicon-192x192.png"; "public/favicon-32x32.png";
   "public/favicon.ico"].

(** The file a [convert] command line names as its destination: the last
    argument, unless that is an option such as [--version]. *)
Definition destination (cmd : list string) : option string :=
  match last cmd with
  | Some a => if String.prefix "-" a then None else Some a
  | None => None
  end.

(** The whole pipeline, in order. *)
Definition pipeline_cmds : list (list string) :=
  probe_cmd :: map conversion_cmd target_dimensions ++ [container_cmd].

(** Log entry of a command that returned 0. *)
Definition succeeded (cmd : list string) : event := Event cmd (Some 0).

(** The order of the conversions, read literally: of two conversions, the
    one of the smaller dimension is started first. *)
Definition size_ascending (log : list event) : Prop :=
  ∀ (i j : nat) (Ni Nj : Z) (ei ej : event),
    Ni ∈ target_dimensions → Nj ∈ target_dimensions →
    log !! i = Some ei → log !! j = Some ej →
    ev_cmd ei = conversion_cmd Ni → ev_cmd ej = conversion_cmd Nj →
    Ni < Nj → (i < j)%nat.

(** The effect of a command on the file system: [out], when there is one,
    replaces the file at the destination. *)
Definition write (dest : option string) (out : option (list Byte.byte))
    (fs : gmap string (list Byte.byte)) : gmap string (list Byte.byte) :=
  match dest, out with
  | Some p, Some d => <[p := d]> fs
  | _, _ => fs
  end.

(** No command of the list names as destination a file that it, or a command
    before it, takes as input, and no two commands name the same
    destination. *)
Fixpoint staged (cmds : list (list string)) : Prop :=
  match cmds with
  | [] => True
  | cmd :: rest =>
      Forall (λ cmd', Forall (λ p, destination cmd' ≠ Some p) (removelast cmd))
        (cmd :: rest)
      ∧ Forall (λ cmd', destination cmd = None
                        ∨ destination cmd' ≠ destination cmd) rest
      ∧ staged rest
  end.

(** ** The run seen from outside *)

Section Model.

Context {World : Type} `{Host World}.

(** [chain cmds w] starts the commands of [cmds] one after the other and
    stops after the first one that cannot be started or returns a non-zero
    status.  It yields the log, the host state reached, and whether every
    command returned 0. *)
Fixpoint chain (cmds : list (list string)) (w : World)
    : list event * World * bool :=
  match cmds with
  | [] => ([], w, true)
  | cmd :: rest =>
      match spawn cmd w with
      | ENOENT => ([Event cmd None], w, false)
      | Exited rc w' =>
          if rc =? 0
          then let '(evs, wf, ok) := chain rest w' in
               (Event cmd (Some rc) :: evs, wf, ok)
          else ([Event cmd (Some rc)], w', false)
      end
  end.

Definition source_present (w : World) : bool :=
  bool_decide (is_Some (files w !! "public/favicon.svg")).

(** What a run on [w] amounts to, seen from outside: the log of external
    invocations, the final host state and the exit status. *)
Definition pipeline (w : World) : list event * World * Z :=
  let '(ev1, w1, ok1) := chain [probe_cmd] w in
  if ok1 && source_present w1 then
    let '(ev2, w2, ok2) :=
      chain (map conversion_cmd target_dimensions ++ [container_cmd]) w1 in
    (ev1 ++ ev2, w2, if ok2 then 0 else 1)
  else (ev1, w1, 1).

Definition observe (r : Result unit * State World) : list event * World * Z :=
  (spawned r.2, world r.2, exit_status r.1).

(** A statement of the shape
    [try: subprocess.run(cmd, check=True); print(ok) except CalledProcessError as e: print(f(e)); sys.exit(1)] *)
Definition guarded (cmd : list string) (ok : string) (failed : exn → string)
    : Py World unit :=
  try_except (subprocess_run cmd ;; print ok) is_CalledProcessError
    (λ e, print (failed e) ;; sys_exit 1).

(** [m] does to the host exactly what [chain cmds] does, returns normally
    when every command returned 0 and otherwise ends the process with
    status 1. *)
Definition follows (m : Py World unit) (cmds : list (list string)) : Prop :=
  ∀ s : State World,
    ∃ (r : Result unit) (out : list string),
      m s = (r, MkState (chain cmds (world s)).1.2 out
                  (spawned s ++ (chain cmds (world s)).1.1))
      ∧ (if (chain cmds (world s)).2
         then r = Normal ()
         else r ≠ Normal () ∧ exit_status r = 1).

(** The three ways a run can go: to the end; stopped by a command that did
    not return 0; stopped, after the version query, by the missing source
    file. *)
Inductive run_shape (w : World) : Prop :=
  | run_complete :
      exit_status (run w).1 = 0 →
      spawned (run w).2 = map succeeded pipeline_cmds →
      run_shape w
  | run_command_failed pre cmd post st :
      exit_status (run w).1 = 1 →
      pipeline_cmds = pre ++ cmd :: post →
      spawned (run w).2 = map succeeded pre ++ [Event cmd st] →
      st ≠ Some 0 →
      run_shape w
  | run_source_missing w1 :
      exit_status (run w).1 = 1 →
      spawn probe_cmd w = Exited 0 w1 →
      files w1 !! "public/favicon.svg" = None →
      spawned (run w).2 = [succeeded probe_cmd] →
      world (run w).2 = w1 →
      run_shape w.

(** The version query writes no file. *)
Definition version_query_read_only : Prop :=
  ∀ (w w1 : World) (rc : Z),
    spawn probe_cmd w = Exited rc w1 → files w1 = files w.

(** [trace w log w']: starting the commands of [log] one after the other
    on host state [w] yields the recorded statuses and ends in [w']. *)
Inductive trace : World → list event → World → Prop :=
  | trace_done w : trace w [] w
  | trace_not_found w cmd log w' :
      spawn cmd w = ENOENT →
      trace w log w' →
      trace w (Event cmd None :: log) w'
  | trace_exited w cmd rc w1 log w' :
      spawn cmd w = Exited rc w1 →
      trace w1 log w' →
      trace w (Event cmd (Some rc) :: log) w'.

(** A command that ran wrote at most the file its command line names as
    destination, and one that returned 0 left a non-empty file there. *)
Definition writes_only_destination : Prop :=
  ∀ (cmd : list string) (w w' : World) (rc : Z) (p : string),
    spawn cmd w = Exited rc w' → destination cmd ≠ Some p →
    files w' !! p = files w !! p.

Definition success_leaves_output : Prop :=
  ∀ (cmd : list string) (w w' : World) (p : string),
    spawn cmd w = Exited 0 w' → destination cmd = Some p →
    ∃ d : list Byte.byte, d ≠ [] ∧ files w' !! p = Some d.

(** The last entry of [log] whose command names [p] as destination. *)
Fixpoint last_writer (p : string) (log : list event) : option event :=
  match log with
  | [] => None
  | e :: log' =>
      match last_writer p log' with
      | Some e' => Some e'
      | None => if bool_decide (destination (ev_cmd e) = Some p)
                then Some e else None
      end
  end.

(** The statement about a failing conversion, read literally: the outputs
    of the sizes after the failing one do not exist. *)
Definition partial_failure_as_stated (w : World) : Prop :=
  ∀ (k : nat) (N rc : Z),
    target_dimensions !! k = Some N →
    spawned (run w).2 !! S k = Some (Event (conversion_cmd N) (Some rc)) →
    rc ≠ 0 →
    (∀ (j : nat) (M : Z), (j < k)%nat → target_dimensions !! j = Some M →
       is_Some (files (world (run w).2) !! raster_path M))
    ∧ (∀ (j : nat) (M : Z), (k < j)%nat → target_dimensions !! j = Some M →
         files (world (run w).2) !! raster_path M = None)
    ∧ length (spawned (run w).2) = S (S k)
    ∧ exit_status (run w).1 ≠ 0.

(** The tool is a function of its argument list and of the contents of its
    input files (the files named by the arguments before the last):
    [tool cmd inputs] is [None] when the executable cannot be started,
    otherwise the exit status and what is written to the destination. *)
Definition deterministic
    (tool : list string → list (option (list Byte.byte))
            → option (Z * option (list Byte.byte))) : Prop :=
  ∀ (cmd : list string) (w : World),
    match tool cmd ((λ p, files w !! p) <$> removelast cmd) with
    | None => spawn cmd w = ENOENT
    | Some (rc, out) =>
        ∃ w' : World,
          spawn cmd w = Exited rc w'
          ∧ files w' = write (destination cmd) out (files w)
    end.

End Model.

(** ** What the script prints *)

(** Whether every entry of a log has status 0, and whether a log goes on
    past its first [n] entries, all of status 0. *)
Definition all_succeeded (evs : list event) : bool :=
  forallb (λ e, bool_decide (ev_status e = Some 0)) evs.

Definition reaches (n : nat) (evs : list event) : bool :=
  all_succeeded (take n evs) && bool_decide (n ≤ length evs)%nat.

(** What two statements in sequence print and raise, given what each does
    and how many commands the first one starts. *)
Definition say_seq (n : nat) (say1 say2 : list event → list string)
    (evs : list event) : list string :=
  say1 (take n evs) ++ (if reaches n evs then say2 (drop n evs) else []).

Definition raised_seq (n : nat) (raised1 raised2 : list event → exn)
    (evs : list event) : exn :=
  if reaches n evs then raised2 (drop n evs) else raised1 (take n evs).

(** What a [guarded] command prints and raises, from its log entry: the
    confirmation when it returned 0, the failure line and [SystemExit(1)]
    when it returned something else, nothing and the [FileNotFoundError],
    which no handler of [generate_png_favicons] catches, when it could not
    be started. *)
Definition say_guarded (ok : string) (failed : exn → string)
    (evs : list event) : list string :=
  match evs with
  | e :: _ =>
      match ev_status e with
      | Some rc =>
          if rc =? 0 then [ok] else [failed (CalledProcessError (ev_cmd e) rc)]
      | None => []
      end
  | [] => []
  end.

Definition raised_guarded (evs : list event) : exn :=
  match evs with
  | e :: _ =>
      match ev_status e with
      | Some _ => SystemExit 1
      | None => FileNotFoundError (default "" (head (ev_cmd e)))
      end
  | [] => SystemExit 1
  end.

Definition say_line (line : string) (evs : list event) : list string := [line].

Definition say_nothing (evs : list event) : list string := [].

Section Console.

Context {World : Type} `{Host World}.

(** [m] does to the host what [chain cmds] does, prints [say log] and, when
    a command did not return 0, raises [raised log], [log] being what
    [chain cmds] logs. *)
Definition says (m : Py World unit) (cmds : list (list string))
    (say : list event → list string) (raised : list event → exn) : Prop :=
  ∀ s : State World,
    m s = (if (chain cmds (world s)).2 then Normal ()
           else Raised (raised (chain cmds (world s)).1.1),
           MkState (chain cmds (world s)).1.2
             (stdout s ++ say (chain cmds (world s)).1.1)
             (spawned s ++ (chain cmds (world s)).1.1)).

(** The two lines of a conversion, for the output path [path]. *)
Definition say_conversion (path : string) : list event → list string :=
  say_guarded ("✓ Generated " +:+ path)
    (λ e, "✗ Failed to generate " +:+ path +:+ ": " +:+ exn_str e).

Definition say_container : list event → list string :=
  say_guarded "✓ Generated public/favicon.ico"
    (λ e, "✗ Failed to generate favicon.ico: " +:+ exn_str e).

(** The six lines that end a successful run. *)
Definition banner : list string :=
  [newline +:+ "✅ All favicons generated successfully!";
   newline +:+ "Next steps:";
   "1. Update layout.tsx to reference the new PNG files";
   "2. Deploy your changes";
   "3. Request re-indexing in Google Search Console";
   "4. Wait 1-3 weeks for Google to update"].

(** What [generate_png_favicons], past the source check, and the end of
    the main block print, from the log of the five commands: composed as
    the statements are. *)
Definition console (evs : list event) : list string :=
  say_seq 5
    (say_seq 3
       (say_seq 1 (say_conversion (raster_path 48))
          (say_seq 1 (say_conversion (raster_path 96))
             (say_seq 1 (say_conversion (raster_path 192)) say_nothing)))
       (say_seq 1 (say_conversion "public/favicon-32x32.png")
          (say_seq 0
             (say_line (newline +:+ "Generating favicon.ico with multiple sizes..."))
             say_container)))
    (λ _, banner) evs.

Definition uncaught (evs : list event) : exn :=
  raised_seq 5
    (raised_seq 3
       (raised_seq 1 raised_guarded
          (raised_seq 1 raised_guarded
             (raised_seq 1 raised_guarded raised_guarded)))
       (raised_seq 1 raised_guarded
          (raised_seq 0 raised_guarded raised_guarded)))
    raised_guarded evs.

(** The console output and the result of a whole run, from its log. *)
Definition transcript (log : list event) : list string :=
  match log with
  | [] => []
  | probe :: rest =>
      if bool_decide (ev_status probe = Some 0)
      then match rest with
           | [] => ["Error: public/favicon.svg not found"]
           | _ => console rest
           end
      else ["Error: ImageMagick is not installed.";
            "Install it with: brew install imagemagick"]
  end.

Definition ending (log : list event) : Result unit :=
  match log with
  | [] => Normal ()
  | probe :: rest =>
      if bool_decide (ev_status probe = Some 0)
      then match rest with
           | [] => Raised (SystemExit 1)
           | _ => if reaches 5 rest then Normal () else Raised (uncaught rest)
           end
      else Raised (SystemExit 1)
  end.

End Console.

(** ** Simulated hosts, to run the script on *)

(** A file system, whether [convert] is installed, and the command lines on
    which it fails with status 1.  A command that works writes a non-empty
    file, determined by its arguments, to its destination. *)
Record Sim : Type := MkSim {
  sim_files : gmap string (list Byte.byte);
  sim_installed : bool;
  sim_broken : list (list string)
}.

Definition sim_rendering (cmd : list string) : list Byte.byte :=
  Byte.x89 :: String.list_byte_of_string (String.concat " " (removelast cmd)).

(** The text of a [CalledProcessError] with a positive exit status, the list
    of arguments shown as Python's [repr] shows it. *)
Definition sim_error_str (cmd : list string) (rc : Z) : string :=
  "Command '[" +:+ String.concat ", " (map (λ a, "'" +:+ a +:+ "'") cmd)
  +:+ "]' returned non-zero exit status " +:+ str rc +:+ ".".

Definition sim_spawn (cmd : list string) (w : Sim) : Spawned Sim :=
  if negb (sim_installed w) then ENOENT
  else if bool_decide (cmd ∈ sim_broken w) then Exited 1 w
  else match destination cmd with
       | None => Exited 0 w
       | Some p =>
           Exited 0 (MkSim (<[p := sim_rendering cmd]> (sim_files w))
                       (sim_installed w) (sim_broken w))
       end.

#[export] Instance Sim_host : Host Sim := {
  files := sim_files;
  spawn := sim_spawn;
  CalledProcessError_str := sim_error_str
}.

Definition svg_bytes : list Byte.byte := String.list_byte_of_string "<svg/>".

(** A fresh checkout: only the source asset is there. *)
Definition fresh (installed : bool) (broken : list (list string)) : Sim :=
  MkSim {[ "public/favicon.svg" := svg_bytes ]} installed broken.

(** A checkout in which an earlier run left [public/favicon-192x192.png]
    behind, on a host whose [convert] fails on the 96 pixel conversion. *)
Definition leftover_192 : Sim :=
  MkSim (<["public/favicon-192x192.png" := String.list_byte_of_string "old"]>
           {[ "public/favicon.svg" := svg_bytes ]})
    true [conversion_cmd 96].

(** A host that is nothing but a file system, with a [convert] that is a
    function of its arguments and inputs: it fails when its last input is
    missing, and otherwise writes a file made of its arguments and of that
    input. *)
Record Disk : Type := MkDisk { disk_files : gmap string (list Byte.byte) }.

Definition disk_tool (cmd : list string) (inputs : list (option (list Byte.byte)))
    : option (Z * option (list Byte.byte)) :=
  match destination cmd with
  | None => Some (0, None)
  | Some _ =>
      match last inputs with
      | Some (Some data) => Some (0, Some (sim_rendering cmd ++ data))
      | _ => Some (1, None)
      end
  end.

#[export] Instance Disk_host : Host Disk := {
  files := disk_files;
  spawn cmd w :=
    match disk_tool cmd ((λ p, disk_files w !! p) <$> removelast cmd) with
    | None => ENOENT
    | Some (rc, out) =>
        Exited rc (MkDisk (write (destination cmd) out (disk_files w)))
    end;
  CalledProcessError_str := sim_error_str
}.

Definition fresh_disk : Disk := MkDisk {[ "public/favicon.svg" := svg_bytes ]}.

(** A host on which [convert] is there for a number of invocations only and
    then can no longer be found (uninstalled, or gone from the search path,
    while the script runs).  Its [convert] returns 0 and writes nothing. *)
Record Fading : Type := MkFading {
  fading_files : gmap string (list Byte.byte);
  fading_left : nat
}.

Definition fading_spawn (cmd : list string) (w : Fading) : Spawned Fading :=
  match fading_left w with
  | O => ENOENT
  | S n => Exited 0 (MkFading (fading_files w) n)
  end.

#[export] Instance Fading_host : Host Fading := {
  files := fading_files;
  spawn := fading_spawn;
  CalledProcessError_str := sim_error_str
}.

(** A fresh checkout on which [convert] is there for [n] invocations. *)
Definition fading (n : nat) : Fading :=
  MkFading {[ "public/favicon.svg" := svg_bytes ]} n.

(** * Properties *)

(** ** The script against [chain] *)

Section Characterisation.

Context {World : Type} `{Host World}.

Lemma guarded_spec cmd ok failed (s : State World) :
  guarded cmd ok failed s =
    match spawn cmd (world s) with
    | ENOENT =>
        (Raised (FileNotFoundError (default "" (head cmd))),
         MkState (world s) (stdout s) (spawned s ++ [Event cmd None]))
    | Exited rc w' =>
        if rc =? 0
        then (Normal (),
              MkState w' (stdout s ++ [ok]) (spawned s ++ [Event cmd (Some rc)]))
        else (Raised (SystemExit 1),
              MkState w' (stdout s ++ [failed (CalledProcessError cmd rc)])
                (spawned s ++ [Event cmd (Some rc)]))
    end.
Proof.
  unfold guarded, try_except, mbind, Py_bind, subprocess_run, print, sys_exit, raise.
  destruct (spawn cmd (world s)) as [|rc w']; [done|].
  by destruct (rc =? 0).
Qed.

Lemma generate_size_guarded size :
  generate_size size =
    guarded (conversion_cmd size) ("✓ Generated " +:+ raster_path size)
      (λ e, "✗ Failed to generate " +:+ raster_path size +:+ ": " +:+ exn_str e).
Proof. reflexivity. Qed.

Lemma generate_legacy_guarded :
  generate_legacy =
    guarded (conversion_cmd 32) "✓ Generated public/favicon-32x32.png"
      (λ e, "✗ Failed to generate public/favicon-32x32.png: " +:+ exn_str e).
Proof. reflexivity. Qed.

Lemma chain_app (c1 c2 : list (list string)) (w : World) :
  chain (c1 ++ c2) w =
    if (chain c1 w).2
    then ((chain c1 w).1.1 ++ (chain c2 (chain c1 w).1.2).1.1,
          (chain c2 (chain c1 w).1.2).1.2,
          (chain c2 (chain c1 w).1.2).2)
    else chain c1 w.
Proof.
  revert w. induction c1 as [|cmd c1 IH]; intros w; simpl.
  - by destruct (chain c2 w) as [[??]?].
  - destruct (spawn cmd w) as [|rc w']; [done|].
    destruct (rc =? 0); [|done].
    rewrite IH. destruct (chain c1 w') as [[e1 w1] ok1]; simpl.
    by destruct ok1.
Qed.

Lemma follows_nil_print line : follows (print line) [].
Proof. intros [w out evs]. exists (Normal ()), (out ++ [line]). by rewrite app_nil_r. Qed.

Lemma follows_nil_ret : follows (mret ()) [].
Proof. intros [w out evs]. exists (Normal ()), out. by rewrite app_nil_r. Qed.

Lemma follows_seq m1 m2 c1 c2 :
  follows m1 c1 → follows m2 c2 → follows (m1 ;; m2) (c1 ++ c2).
Proof.
  intros H1 H2 s. rewrite chain_app.
  destruct (H1 s) as (r1 & out1 & E1 & R1).
  unfold mbind, Py_bind. rewrite E1.
  destruct ((chain c1 (world s)).2) eqn:Hok.
  - subst r1. destruct (H2 (MkState (chain c1 (world s)).1.2 out1
      (spawned s ++ (chain c1 (world s)).1.1))) as (r2 & out2 & E2 & R2).
    simpl in E2, R2. exists r2, out2. simpl. by rewrite E2, <-(assoc_L (++)).
  - destruct R1 as [Hne Hst]. destruct r1 as [[]|e]; [done|].
    exists (Raised e), out1. by rewrite Hok.
Qed.

Lemma follows_guarded cmd ok failed : follows (guarded cmd ok failed) [cmd].
Proof.
  intros s. rewrite guarded_spec. simpl.
  destruct (spawn cmd (world s)) as [|rc w']; [by eexists _, _|].
  destruct (rc =? 0); by eexists _, _.
Qed.

Lemma follows_for_each xs :
  follows (for_each xs generate_size) (map conversion_cmd xs).
Proof.
  induction xs as [|size xs IH]; [exact follows_nil_ret|].
  change (follows (generate_size size ;; for_each xs generate_size)
            ([conversion_cmd size] ++ map conversion_cmd xs)).
  apply follows_seq; [|exact IH].
  rewrite generate_size_guarded. apply follows_guarded.
Qed.

Lemma follows_check_dependencies : follows check_dependencies [probe_cmd].
Proof.
  intros s. unfold check_dependencies, try_except, subprocess_run. simpl.
  fold probe_cmd.
  destruct (spawn probe_cmd (world s)) as [|rc w']; [by eexists _, _|].
  destruct (rc =? 0); by eexists _, _.
Qed.

Lemma follows_generate_ico : follows generate_ico [container_cmd].
Proof.
  change (follows generate_ico ([] ++ [container_cmd])).
  apply follows_seq; [apply follows_nil_print|].
  apply (follows_guarded container_cmd "✓ Generated public/favicon.ico"
           (λ e, "✗ Failed to generate favicon.ico: " +:+ exn_str e)).
Qed.

(** [generate_png_favicons] past the check of the source file *)
Lemma follows_conversions :
  follows (for_each sizes generate_size ;; generate_legacy ;; generate_ico)
    (map conversion_cmd target_dimensions ++ [container_cmd]).
Proof.
  change (map conversion_cmd target_dimensions ++ [container_cmd])
    with (map conversion_cmd sizes ++ [conversion_cmd 32] ++ [container_cmd]).
  apply follows_seq; [apply follows_for_each|].
  apply follows_seq; [|apply follows_generate_ico].
  rewrite generate_legacy_guarded. apply follows_guarded.
Qed.

Lemma generate_png_favicons_absent (s : State World) :
  source_present (world s) = false →
  generate_png_favicons s =
    (Raised (SystemExit 1),
     MkState (world s) (stdout s ++ ["Error: public/favicon.svg not found"])
       (spawned s)).
Proof.
  intros Habs. unfold generate_png_favicons, mbind, Py_bind, os_path_exists.
  unfold source_present in Habs. unfold svg_file. by rewrite Habs.
Qed.

Lemma generate_png_favicons_present (s : State World) :
  source_present (world s) = true →
  generate_png_favicons s =
    (for_each sizes generate_size ;; generate_legacy ;; generate_ico) s.
Proof.
  intros Hpres. unfold generate_png_favicons, os_path_exists.
  unfold source_present in Hpres. unfold svg_file.
  unfold mbind at 1. unfold Py_bind at 1. by rewrite Hpres.
Qed.

Lemma follows_banner :
  follows
    (print (newline +:+ "✅ All favicons generated successfully!") ;;
     print (newline +:+ "Next steps:") ;;
     print "1. Update layout.tsx to reference the new PNG files" ;;
     print "2. Deploy your changes" ;;
     print "3. Request re-indexing in Google Search Console" ;;
     print "4. Wait 1-3 weeks for Google to update")
    [].
Proof.
  repeat (apply (follows_seq _ _ [] []); [apply follows_nil_print|]).
  apply follows_nil_print.
Qed.

Lemma bind_normal {A B} (m : Py World A) (k : A → Py World B) s a s' :
  m s = (Normal a, s') → (m ≫= k) s = k a s'.
Proof. intros E. unfold mbind, Py_bind. by rewrite E. Qed.

Lemma bind_raised {A B} (m : Py World A) (k : A → Py World B) s e s' :
  m s = (Raised e, s') → (m ≫= k) s = (Raised e, s').
Proof. intros E. unfold mbind, Py_bind. by rewrite E. Qed.

Lemma bind_same {A B} (m m' : Py World A) (k : A → Py World B) s :
  m s = m' s → (m ≫= k) s = (m' ≫= k) s.
Proof. intros E. unfold mbind, Py_bind. by rewrite E. Qed.

(** The run of the script, seen from outside, is [pipeline]. *)
Lemma run_pipeline (w : World) : observe (run w) = pipeline w.
Proof.
  unfold observe, run, pipeline, main.
  destruct (follows_check_dependencies (MkState w [] [])) as (r1 & out1 & E1 & R1).
  cbn [world spawned app] in E1, R1.
  destruct (chain [probe_cmd] w) as [[ev1 w1] ok1].
  cbn [fst snd] in E1, R1. destruct ok1; cbn [andb].
  - subst r1. rewrite (bind_normal _ _ _ _ _ E1).
    destruct (source_present w1) eqn:Hsrc.
    + rewrite (bind_same generate_png_favicons
                 (for_each sizes generate_size ;; generate_legacy ;; generate_ico))
        by (by apply generate_png_favicons_present).
      destruct (follows_seq _ _ _ _ follows_conversions follows_banner
                  (MkState w1 out1 ev1)) as (r2 & out2 & E2 & R2).
      rewrite app_nil_r in E2, R2. cbn [world spawned] in E2, R2.
      rewrite E2.
      destruct (chain _ w1) as [[ev2 w2] ok2]. cbn [fst snd] in *.
      destruct ok2; [by subst r2|]. by destruct R2 as [_ ->].
    + rewrite (bind_raised _ _ _ _ _
                 (generate_png_favicons_absent (MkState w1 out1 ev1) Hsrc)).
      done.
  - destruct R1 as [Hne Hst]. destruct r1 as [[]|e]; [done|].
    rewrite (bind_raised _ _ _ _ _ E1). cbn [fst snd world spawned].
    by rewrite Hst.
Qed.

End Characterisation.

(** ** The shape of a log *)

Section Shape.

Context {World : Type} `{Host World}.

(** Either every command returned 0, or the log stops at the first command
    that did not. *)
Lemma chain_shape (cmds : list (list string)) (w : World) :
  ((chain cmds w).2 = true ∧ (chain cmds w).1.1 = map succeeded cmds)
  ∨ ((chain cmds w).2 = false
     ∧ ∃ pre cmd post st,
         cmds = pre ++ cmd :: post
         ∧ (chain cmds w).1.1 = map succeeded pre ++ [Event cmd st]
         ∧ st ≠ Some 0).
Proof.
  revert w. induction cmds as [|cmd rest IH]; intros w; simpl; [by left|].
  destruct (spawn cmd w) as [|rc w'].
  - right. split; [done|]. by exists [], cmd, rest, None.
  - destruct (Z.eqb_spec rc 0) as [->|Hrc].
    + destruct (IH w') as [[Hok Hev]|(Hok & pre & c & post & st & Hsplit & Hev & Hst)];
        destruct (chain rest w') as [[evs wf] ok]; simpl in *; subst.
      * by left.
      * right. split; [done|]. by exists (cmd :: pre), c, post, st.
    + right. split; [done|]. exists [], cmd, rest, (Some rc).
      split_and!; [done..|]. by intros [= ->].
Qed.

Lemma run_log (w : World) : spawned (run w).2 = (pipeline w).1.1.
Proof. by rewrite <-run_pipeline. Qed.

Lemma run_world (w : World) : world (run w).2 = (pipeline w).1.2.
Proof. by rewrite <-run_pipeline. Qed.

Lemma run_exit (w : World) : exit_status (run w).1 = (pipeline w).2.
Proof. by rewrite <-run_pipeline. Qed.

Lemma chain_single (cmd : list string) (w : World) :
  chain [cmd] w =
    match spawn cmd w with
    | ENOENT => ([Event cmd None], w, false)
    | Exited rc w' => ([Event cmd (Some rc)], w', rc =? 0)
    end.
Proof.
  simpl. destruct (spawn cmd w) as [|rc w']; [done|]. by destruct (rc =? 0).
Qed.

Lemma run_cases (w : World) : run_shape w.
Proof.
  pose proof (run_log w) as Hlog. pose proof (run_exit w) as Hexit.
  pose proof (run_world w) as Hworld.
  unfold pipeline in *. rewrite chain_single in *.
  destruct (spawn probe_cmd w) as [|rc w1] eqn:Hspawn.
  { by apply (run_command_failed w [] probe_cmd
                (map conversion_cmd target_dimensions ++ [container_cmd]) None). }
  destruct (Z.eqb_spec rc 0) as [->|Hrc]; cbn [andb] in *.
  2: { apply (run_command_failed w [] probe_cmd
                (map conversion_cmd target_dimensions ++ [container_cmd]) (Some rc));
         [done..|]. by intros [= ->]. }
  destruct (source_present w1) eqn:Hsrc.
  - destruct (chain_shape (map conversion_cmd target_dimensions ++ [container_cmd]) w1)
      as [[Hok2 Hev2]|(Hok2 & pre & c & post & st & Hsplit & Hev2 & Hst)];
      destruct (chain _ w1) as [[ev2 w2] ok2]; simpl in Hok2, Hev2; subst ok2 ev2.
    + by apply run_complete.
    + apply (run_command_failed w (probe_cmd :: pre) c post st); [done| |done..].
      unfold pipeline_cmds. by rewrite Hsplit.
  - apply (run_source_missing w w1); [done..| |done|done].
    unfold source_present in Hsrc. apply bool_decide_eq_false in Hsrc.
    by apply eq_None_not_Some.
Qed.

End Shape.

(** *** The version query and the source check *)

Section Gate.

Context {World : Type} `{Host World}.

Lemma run_probe_not_found (w : World) :
  spawn probe_cmd w = ENOENT →
  observe (run w) = ([Event probe_cmd None], w, 1).
Proof.
  intros Hsp. rewrite run_pipeline. unfold pipeline.
  by rewrite chain_single, Hsp.
Qed.

Lemma run_probe_nonzero (w w1 : World) (rc : Z) :
  spawn probe_cmd w = Exited rc w1 → rc ≠ 0 →
  observe (run w) = ([Event probe_cmd (Some rc)], w1, 1).
Proof.
  intros Hsp Hrc. rewrite run_pipeline. unfold pipeline.
  rewrite chain_single, Hsp. by rewrite (proj2 (Z.eqb_neq _ _) Hrc).
Qed.

Lemma run_source_absent (w w1 : World) :
  spawn probe_cmd w = Exited 0 w1 →
  files w1 !! "public/favicon.svg" = None →
  observe (run w) = ([succeeded probe_cmd], w1, 1).
Proof.
  intros Hsp Habs. rewrite run_pipeline. unfold pipeline.
  rewrite chain_single, Hsp. cbn [Z.eqb andb]. unfold source_present.
  rewrite Habs, bool_decide_eq_false_2; [done|]. by intros [??].
Qed.

(** Past a successful version query and the source check, the run is the
    chain of the five remaining commands. *)
Lemma run_source_found (w w1 : World) :
  spawn probe_cmd w = Exited 0 w1 →
  is_Some (files w1 !! "public/favicon.svg") →
  observe (run w) =
    let c := chain (map conversion_cmd target_dimensions ++ [container_cmd]) w1 in
    (succeeded probe_cmd :: c.1.1, c.1.2, if c.2 then 0 else 1).
Proof.
  intros Hsp Hpres. rewrite run_pipeline. unfold pipeline.
  rewrite chain_single, Hsp. cbn [Z.eqb andb]. unfold source_present.
  rewrite bool_decide_eq_true_2 by done.
  by destruct (chain _ w1) as [[??]?].
Qed.


(** A chain starts its first command, whatever comes of it. *)
Lemma chain_first (cmd : list string) (rest : list (list string)) (w : World) :
  ∃ st : option Z, (chain (cmd :: rest) w).1.1 !! 0%nat = Some (Event cmd st).
Proof.
  simpl. destruct (spawn cmd w) as [|rc w']; [by eexists|].
  destruct (rc =? 0); [|by eexists].
  destruct (chain rest w') as [[evs wf] ok]. by eexists.
Qed.

End Gate.

Lemma observe_inv {World : Type} (r : Result unit * State World) log w z :
  observe r = (log, w, z) →
  spawned r.2 = log ∧ world r.2 = w ∧ exit_status r.1 = z.
Proof. by intros [= -> -> ->]. Qed.

(** *** Lists of log entries *)

Lemma map_ev_cmd_succeeded (cmds : list (list string)) :
  map ev_cmd (map succeeded cmds) = cmds.
Proof. induction cmds as [|c cmds IH]; [done|]. simpl. by rewrite IH. Qed.

Lemma lookup_succeeded (cmds : list (list string)) (i : nat) (e : event) :
  map succeeded cmds !! i = Some e →
  cmds !! i = Some (ev_cmd e) ∧ ev_status e = Some 0.
Proof.
  revert i. induction cmds as [|c cmds IH]; intros [|i] Hi; simplify_eq/=; auto.
Qed.

(** In the log of a run stopped by a failing command, only the last entry
    has a status other than 0. *)
Lemma lookup_stopped_log pre cmd st (i : nat) (e : event) :
  (map succeeded pre ++ [Event cmd st]) !! i = Some e →
  (i < length pre)%nat ∧ pre !! i = Some (ev_cmd e) ∧ ev_status e = Some 0
  ∨ i = length pre ∧ e = Event cmd st.
Proof.
  intros Hi. destruct (decide (i < length pre)%nat) as [Hlt|Hge].
  - left. rewrite lookup_app_l in Hi by by rewrite length_map.
    split; [done|]. by apply lookup_succeeded.
  - right. rewrite lookup_app_r in Hi by (rewrite length_map; lia).
    rewrite length_map in Hi.
    destruct (i - length pre)%nat as [|n] eqn:Hn; simplify_eq/=.
    split; [lia|done].
Qed.

(** ** Logs and the host states they connect *)

Section Trace.

Context {World : Type} `{Host World}.

Lemma trace_app w l1 wm l2 w' :
  trace w l1 wm → trace wm l2 w' → trace w (l1 ++ l2) w'.
Proof.
  induction 1 as [|w cmd log wm Hsp _ IH|w cmd rc w1 log wm Hsp _ IH];
    intros H2; simpl; [done|..].
  - apply trace_not_found; auto.
  - eapply trace_exited; eauto.
Qed.

Lemma chain_trace (cmds : list (list string)) (w : World) :
  trace w (chain cmds w).1.1 (chain cmds w).1.2.
Proof.
  revert w. induction cmds as [|cmd rest IH]; intros w; simpl; [constructor|].
  destruct (spawn cmd w) as [|rc w1] eqn:Hsp.
  - apply trace_not_found; [done|constructor].
  - destruct (rc =? 0).
    + specialize (IH w1). destruct (chain rest w1) as [[evs wf] ok].
      by eapply trace_exited.
    + eapply trace_exited; [done|constructor].
Qed.

(** The log of a run and its final host state. *)
Lemma run_trace (w : World) : trace w (spawned (run w).2) (world (run w).2).
Proof.
  rewrite run_log, run_world. unfold pipeline.
  pose proof (chain_trace [probe_cmd] w) as H1.
  destruct (chain [probe_cmd] w) as [[ev1 w1] ok1]. simpl in H1.
  destruct (ok1 && source_present w1); [|done].
  pose proof (chain_trace (map conversion_cmd target_dimensions ++ [container_cmd]) w1) as H2.
  destruct (chain _ w1) as [[ev2 w2] ok2]. simpl in *.
  by eapply trace_app.
Qed.

(** What a log tells about a path, under the two assumptions on the tool:
    a path no command of the log names as destination is as before; a
    path whose last writer returned 0 holds a non-empty file. *)
Lemma trace_written (w w' : World) (log : list event) (p : string) :
  writes_only_destination → success_leaves_output →
  trace w log w' →
  match last_writer p log with
  | None => files w' !! p = files w !! p
  | Some e => ev_status e = Some 0 →
              ∃ d : list Byte.byte, d ≠ [] ∧ files w' !! p = Some d
  end.
Proof.
  intros Hframe Hout.
  induction 1 as [|w cmd log w' Hsp _ IH|w cmd rc w1 log w' Hsp _ IH]; simpl; [done|..].
  - destruct (last_writer p log) as [e'|]; [done|].
    case_bool_decide; [|done]. by intros [=].
  - destruct (last_writer p log) as [e'|]; [done|].
    case_bool_decide as Hdest; simpl.
    + intros [= ->]. rewrite IH. by eapply Hout.
    + rewrite IH. by eapply Hframe.
Qed.

Lemma last_writer_None (p : string) (log : list event) :
  Forall (λ e, destination (ev_cmd e) ≠ Some p) log → last_writer p log = None.
Proof.
  induction 1 as [|e log He _ IH]; simpl; [done|].
  rewrite IH. by rewrite bool_decide_eq_false_2.
Qed.

(** A path no command of the log names as destination is as before. *)
Lemma trace_frame (w w' : World) (log : list event) (p : string) :
  writes_only_destination →
  trace w log w' →
  Forall (λ e, destination (ev_cmd e) ≠ Some p) log →
  files w' !! p = files w !! p.
Proof.
  intros Hframe.
  induction 1 as [|w cmd log w' Hsp _ IH|w cmd rc w1 log w' Hsp _ IH];
    intros Hall; [done|..]; apply Forall_cons in Hall as [Hd Hall].
  - by apply IH.
  - rewrite IH by done. by eapply Hframe.
Qed.

Lemma chain_log_cmds (cmds : list (list string)) (w : World) :
  Forall (λ e, ev_cmd e ∈ cmds) (chain cmds w).1.1.
Proof.
  revert w. induction cmds as [|cmd rest IH]; intros w; simpl; [constructor|].
  destruct (spawn cmd w) as [|rc w1].
  - repeat constructor.
  - destruct (rc =? 0); [|repeat constructor].
    specialize (IH w1). destruct (chain rest w1) as [[evs wf] ok]. simpl in *.
    constructor; [constructor|].
    eapply Forall_impl; [exact IH|]. intros e He. by apply list_elem_of_further.
Qed.

(** A chain leaves alone every path none of its commands names as
    destination. *)
Lemma chain_frame (cmds : list (list string)) (w : World) (p : string) :
  writes_only_destination →
  Forall (λ cmd, destination cmd ≠ Some p) cmds →
  files (chain cmds w).1.2 !! p = files w !! p.
Proof.
  intros Hframe Hall. apply (trace_frame _ _ _ _ Hframe (chain_trace cmds w)).
  eapply Forall_impl; [apply chain_log_cmds|].
  intros e He. by apply (proj1 (Forall_forall _ _) Hall).
Qed.

End Trace.

Lemma last_writer_in (p : string) (log : list event) (e : event) :
  last_writer p log = Some e → e ∈ log ∧ destination (ev_cmd e) = Some p.
Proof.
  induction log as [|e0 log IH]; simpl; [done|].
  destruct (last_writer p log) as [e'|].
  - intros [= ->]. destruct IH as [??]; [done|].
    split; [by apply list_elem_of_further|done].
  - case_bool_decide; [|done]. intros [= ->].
    split; [apply list_elem_of_here|done].
Qed.

Lemma last_writer_None_inv (p : string) (log : list event) :
  last_writer p log = None →
  ∀ e, e ∈ log → destination (ev_cmd e) ≠ Some p.
Proof.
  induction log as [|e0 log IH]; simpl; intros Hlw e He.
  - by apply elem_of_nil in He.
  - destruct (last_writer p log) as [e'|]; [done|].
    case_bool_decide; [done|].
    apply elem_of_cons in He as [->|He]; [done|]. by apply IH.
Qed.

Lemma last_writer_Some (p : string) (log : list event) :
  (∃ e, e ∈ log ∧ destination (ev_cmd e) = Some p) →
  ∃ e', last_writer p log = Some e' ∧ e' ∈ log.
Proof.
  intros (e & He & Hd). destruct (last_writer p log) as [e'|] eqn:Hlw.
  - exists e'. split; [done|]. by apply (last_writer_in p).
  - by destruct (last_writer_None_inv p log Hlw e He).
Qed.

(** The destinations the six command lines name. *)
Lemma pipeline_destinations :
  map destination pipeline_cmds = None :: map Some output_paths.
Proof. reflexivity. Qed.

Lemma succeeded_destination (cmds : list (list string)) (p : string) :
  Some p ∈ map destination cmds →
  ∃ e, e ∈ map succeeded cmds ∧ destination (ev_cmd e) = Some p.
Proof.
  induction cmds as [|c cmds IH]; simpl; intros Hp.
  - by apply elem_of_nil in Hp.
  - apply elem_of_cons in Hp as [Hp|Hp].
    + exists (succeeded c). split; [apply list_elem_of_here|done].
    + destruct (IH Hp) as (e & ? & ?). exists e.
      split; [by apply list_elem_of_further|done].
Qed.

Lemma no_destination (cmds : list (list string)) (p : string) :
  Some p ∉ map destination cmds →
  Forall (λ e, destination (ev_cmd e) ≠ Some p) (map succeeded cmds).
Proof.
  induction cmds as [|c cmds IH]; simpl; intros Hp; [constructor|].
  apply not_elem_of_cons in Hp as [? ?]. constructor; [done|auto].
Qed.

Lemma split_at_length {A} (pre post l : list A) (x : A) :
  l = pre ++ x :: post → pre = take (length pre) l.
Proof. intros ->. by rewrite take_app_length. Qed.

(** *** Positions in the log *)

Lemma conversion_position (i : nat) (N : Z) :
  N ∈ target_dimensions →
  pipeline_cmds !! i = Some (conversion_cmd N) →
  N = 48 ∧ i = 1%nat ∨ N = 96 ∧ i = 2%nat
  ∨ N = 192 ∧ i = 3%nat ∨ N = 32 ∧ i = 4%nat.
Proof.
  unfold target_dimensions. rewrite !elem_of_cons, elem_of_nil.
  intros [->|[->|[->|[->|[]]]]] Hi;
    destruct i as [|[|[|[|[|[|i]]]]]]; vm_compute in Hi; try discriminate Hi;
    auto 6.
Qed.

Lemma container_position (i : nat) :
  pipeline_cmds !! i = Some container_cmd → i = 5%nat.
Proof.
  intros Hi.
  destruct i as [|[|[|[|[|[|i]]]]]]; vm_compute in Hi; try discriminate Hi; done.
Qed.

Section Positions.

Context {World : Type} `{Host World}.

Lemma run_log_prefix (w : World) :
  map ev_cmd (spawned (run w).2) `prefix_of` pipeline_cmds.
Proof.
  destruct (run_cases w) as [_ ->|pre c post st _ Hsplit -> _|w1 _ _ _ -> _].
  - by rewrite map_ev_cmd_succeeded.
  - rewrite map_app, map_ev_cmd_succeeded, Hsplit. simpl.
    exists post. by rewrite <-(assoc_L (++)).
  - by eexists.
Qed.

Lemma run_log_lookup (w : World) (i : nat) (e : event) :
  spawned (run w).2 !! i = Some e → pipeline_cmds !! i = Some (ev_cmd e).
Proof.
  intros Hi. eapply prefix_lookup_Some; [|apply run_log_prefix].
  change (map ev_cmd ?l) with (ev_cmd <$> l).
  by rewrite list_lookup_fmap, Hi.
Qed.

End Positions.

Lemma staged_pipeline_cmds : staged pipeline_cmds.
Proof.
  repeat first [split | apply Forall_cons | apply Forall_nil];
    try (by vm_compute); try (right; by vm_compute).
Qed.

Lemma staged_conversions :
  staged (map conversion_cmd target_dimensions ++ [container_cmd]).
Proof. exact (proj2 (proj2 staged_pipeline_cmds)). Qed.

Lemma lookup_write_ne dest out fs (p : string) :
  dest ≠ Some p → write dest out fs !! p = fs !! p.
Proof.
  intros Hne. destruct dest as [q|], out as [d|]; simpl; try done.
  apply lookup_insert_ne. congruence.
Qed.

Lemma write_again dest out fs fs' :
  (∀ p, dest = Some p → fs' !! p = write dest out fs !! p) →
  write dest out fs' = fs'.
Proof.
  intros Hsame. destruct dest as [q|], out as [d|]; simpl; try done.
  apply insert_id. rewrite (Hsame q eq_refl). simpl. apply lookup_insert_eq.
Qed.

Section Rerun.

Context {World : Type} `{Host World}.
Variable tool : list string → list (option (list Byte.byte))
                → option (Z * option (list Byte.byte)).
Hypothesis Hdet : deterministic tool.

Lemma deterministic_frame : writes_only_destination.
Proof.
  intros cmd w w' rc p Hsp Hdest. specialize (Hdet cmd w).
  destruct (tool cmd _) as [[rc' out]|]; [|congruence].
  destruct Hdet as (w'' & Hsp' & Hfiles). rewrite Hsp in Hsp'.
  injection Hsp' as -> ->. rewrite Hfiles. by apply lookup_write_ne.
Qed.

(** Two host states that agree on the inputs of a command give it the
    same fate. *)
Lemma spawn_same_inputs (cmd : list string) (w w2 : World) :
  Forall (λ p, files w2 !! p = files w !! p) (removelast cmd) →
  match spawn cmd w with
  | ENOENT => spawn cmd w2 = ENOENT
  | Exited rc w' =>
      ∃ (w2' : World) (out : option (list Byte.byte)),
        spawn cmd w2 = Exited rc w2'
        ∧ files w' = write (destination cmd) out (files w)
        ∧ files w2' = write (destination cmd) out (files w2)
  end.
Proof.
  intros Hin.
  assert (((λ p, files w2 !! p) <$> removelast cmd)
          = ((λ p, files w !! p) <$> removelast cmd)) as Heq.
  { induction Hin as [|p ps Hp _ IH]; [done|]. rewrite !fmap_cons. by f_equal. }
  pose proof (Hdet cmd w) as H1. pose proof (Hdet cmd w2) as H2.
  rewrite Heq in H2.
  destruct (tool cmd _) as [[rc out]|].
  - destruct H1 as (w' & -> & Hw'), H2 as (w2' & Hsp2 & Hw2'). by exists w2', out.
  - by rewrite H1.
Qed.

(** Running a staged list of commands again, on the files the first run
    left, repeats the first run and changes no file. *)
Lemma chain_rerun (cmds : list (list string)) :
  staged cmds →
  ∀ w w2 : World,
    files w2 = files (chain cmds w).1.2 →
    (chain cmds w2).1.1 = (chain cmds w).1.1
    ∧ (chain cmds w2).2 = (chain cmds w).2
    ∧ files (chain cmds w2).1.2 = files w2.
Proof.
  induction cmds as [|cmd rest IH]; intros Hst w w2 Hw2; [done|].
  destruct Hst as (Hin & Hdist & Hst).
  assert (Forall (λ p, files w2 !! p = files w !! p) (removelast cmd)) as Hinputs.
  { rewrite Hw2. apply Forall_forall. intros p Hp.
    apply chain_frame; [exact deterministic_frame|].
    eapply Forall_impl; [exact Hin|]. intros cmd' Hcmd'.
    by apply (proj1 (Forall_forall _ _) Hcmd'). }
  pose proof (spawn_same_inputs cmd w w2 Hinputs) as Hsame.
  simpl in Hw2 |- *. destruct (spawn cmd w) as [|rc w1] eqn:Hsp.
  { by rewrite Hsame. }
  destruct Hsame as (w2' & out & -> & Hw1 & Hw2').
  destruct (rc =? 0).
  - assert (files w2' = files w2) as Hsame_files.
    { rewrite Hw2'. apply (write_again _ _ (files w)). intros p Hp.
      rewrite <-Hw1, Hw2.
      pose proof (chain_frame rest w1 p deterministic_frame) as Hfr.
      destruct (chain rest w1) as [[evs wf] ok]. simpl in *. apply Hfr.
      eapply Forall_impl; [exact Hdist|]. intros cmd' [?|?]; congruence. }
    specialize (IH Hst w1 w2').
    destruct (chain rest w1) as [[evs wf] ok]. simpl in *.
    destruct IH as (He & Hok & Hf); [by rewrite Hsame_files|].
    destruct (chain rest w2') as [[evs2 wf2] ok2]. simpl in *. subst.
    by rewrite Hf.
  - simpl in *. split_and!; [done..|]. rewrite Hw2'.
    apply (write_again _ _ (files w)). intros p Hp. by rewrite Hw2, Hw1.
Qed.

Lemma pipeline_rerun (w w2 : World) :
  files w2 = files (pipeline w).1.2 →
  (pipeline w2).1.1 = (pipeline w).1.1
  ∧ (pipeline w2).2 = (pipeline w).2
  ∧ files (pipeline w2).1.2 = files w2.
Proof.
  intros Hw2.
  assert (files w2 !! "convert" = files w !! "convert") as Hconvert.
  { rewrite Hw2, <-run_world.
    apply (trace_frame _ _ _ _ deterministic_frame (run_trace w)), Forall_forall.
    intros e He Hd. apply list_elem_of_lookup in He as [i Hi].
    apply run_log_lookup in Hi.
    assert (Some "convert" ∈ map destination pipeline_cmds) as Hin.
    { rewrite <-Hd. apply list_elem_of_In, in_map, list_elem_of_In.
      by eapply list_elem_of_lookup_2. }
    rewrite pipeline_destinations in Hin. unfold output_paths in Hin.
    repeat (apply elem_of_cons in Hin as [Hin|Hin]; [discriminate Hin|]).
    by apply elem_of_nil in Hin. }
  pose proof (spawn_same_inputs probe_cmd w w2) as Hsame.
  unfold pipeline in *. rewrite !chain_single in *.
  destruct (spawn probe_cmd w) as [|rc w1] eqn:Hsp.
  { rewrite Hsame; [done|]. by repeat constructor. }
  destruct Hsame as (w2' & out & -> & Hw1 & Hw2'); [by repeat constructor|].
  change (destination probe_cmd) with (@None string) in Hw1, Hw2'.
  simpl in Hw1, Hw2'.
  destruct (rc =? 0); cbn [andb] in *; [|done].
  assert (source_present w2' = source_present w1) as Hpres.
  { unfold source_present. rewrite Hw2', Hw2.
    destruct (source_present w1) eqn:Hsrc; [|done].
    pose proof (chain_frame (map conversion_cmd target_dimensions ++ [container_cmd])
                  w1 "public/favicon.svg" deterministic_frame) as Hfr.
    destruct (chain _ w1) as [[evs wf] ok]. cbn [fst snd] in *.
    rewrite Hfr; [done|].
    repeat first [apply Forall_cons; split | apply Forall_nil]; by vm_compute. }
  rewrite Hpres. destruct (source_present w1); [|done].
  pose proof (chain_rerun _ staged_conversions w1 w2') as Hre.
  destruct (chain _ w1) as [[evs wf] ok]. cbn [fst snd] in *.
  destruct Hre as (He & Hok & Hf); [congruence|].
  destruct (chain _ w2') as [[evs2 wf2] ok2]. cbn [fst snd] in *. subst.
  split_and!; [done..|]. congruence.
Qed.

End Rerun.

(** ** The simulated hosts *)

Lemma sim_version_query_read_only : version_query_read_only (World := Sim).
Proof.
  intros w w1 rc. simpl. unfold sim_spawn.
  destruct (sim_installed w); simpl; [|done].
  case_bool_decide; [by intros [= <- <-]|].
  change (destination probe_cmd) with (@None string). by intros [= <- <-].
Qed.

Lemma sim_writes_only_destination : writes_only_destination (World := Sim).
Proof.
  intros cmd w w' rc p. simpl. unfold sim_spawn.
  destruct (sim_installed w); simpl; [|done].
  case_bool_decide; [by intros [= <- <-]|].
  destruct (destination cmd) as [q|]; intros [= <- <-] Hne; simpl; [|done].
  apply lookup_insert_ne. congruence.
Qed.

Lemma sim_success_leaves_output : success_leaves_output (World := Sim).
Proof.
  intros cmd w w' p. simpl. unfold sim_spawn.
  destruct (sim_installed w); simpl; [|done].
  case_bool_decide; [done|].
  intros Hsp Hd. rewrite Hd in Hsp. injection Hsp as <-. simpl.
  exists (sim_rendering cmd). split; [done|]. apply lookup_insert_eq.
Qed.

Lemma disk_deterministic : deterministic (World := Disk) disk_tool.
Proof.
  intros cmd w. simpl.
  destruct (disk_tool cmd _) as [[rc out]|]; [|done]. by eexists.
Qed.

(** *** Four runs *)

Example run_on_fresh_checkout :
  map ev_cmd (spawned (run (fresh true [])).2) =
    [["convert"; "--version"];
     ["convert"; "-background"; "none"; "-density"; "300"; "-resize"; "48x48";
      "public/favicon.svg"; "public/favicon-48x48.png"];
     ["convert"; "-background"; "none"; "-density"; "300"; "-resize"; "96x96";
      "public/favicon.svg"; "public/favicon-96x96.png"];
     ["convert"; "-background"; "none"; "-density"; "300"; "-resize"; "192x192";
      "public/favicon.svg"; "public/favicon-192x192.png"];
     ["convert"; "-background"; "none"; "-density"; "300"; "-resize"; "32x32";
      "public/favicon.svg"; "public/favicon-32x32.png"];
     ["convert"; "public/favicon-32x32.png"; "public/favicon-48x48.png";
      "public/favicon.ico"]]
  ∧ exit_status (run (fresh true [])).1 = 0.
Proof. by vm_compute. Qed.

Example run_with_failing_conversion :
  stdout (run (fresh true [conversion_cmd 96])).2 =
    ["✓ Generated public/favicon-48x48.png";
     "✗ Failed to generate public/favicon-96x96.png: Command '['convert', '-background', 'none', '-density', '300', '-resize', '96x96', 'public/favicon.svg', 'public/favicon-96x96.png']' returned non-zero exit status 1."]
  ∧ (run (fresh true [conversion_cmd 96])).1 = Raised (SystemExit 1).
Proof. by vm_compute. Qed.

Example run_with_failing_version_query :
  stdout (run (fresh true [probe_cmd])).2 =
    ["Error: ImageMagick is not installed.";
     "Install it with: brew install imagemagick"]
  ∧ spawned (run (fresh true [probe_cmd])).2 = [Event probe_cmd (Some 1)]
  ∧ (run (fresh true [probe_cmd])).1 = Raised (SystemExit 1).
Proof. by vm_compute. Qed.

Example run_without_source :
  stdout (run (MkSim ∅ true [])).2 = ["Error: public/favicon.svg not found"]
  ∧ spawned (run (MkSim ∅ true [])).2 = [succeeded probe_cmd]
  ∧ (run (MkSim ∅ true [])).1 = Raised (SystemExit 1).
Proof. by vm_compute. Qed.

(** * Behaviour of the pipeline *)

Section Claims.

Context {World : Type} `{Host World}.

(** C1. When the source file exists and every external command the run
    starts returns 0 (a command that returns 0 having left a non-empty
    file at its destination and touched no other path), the process exits
    with status 0, each of the five fixed output paths holds a non-empty
    file, and no other path has been created or changed. *)
Theorem five_outputs_on_success (w : World) :
  writes_only_destination → success_leaves_output →
  is_Some (files w !! "public/favicon.svg") →
  Forall (λ e, ev_status e = Some 0) (spawned (run w).2) →
  exit_status (run w).1 = 0
  ∧ (∀ p : string,
       p ∈ ["public/favicon-48x48.png"; "public/favicon-96x96.png";
            "public/favicon-192x192.png"; "public/favicon-32x32.png";
            "public/favicon.ico"] →
       ∃ d : list Byte.byte, d ≠ [] ∧ files (world (run w).2) !! p = Some d)
  ∧ (∀ p : string,
       p ∉ ["public/favicon-48x48.png"; "public/favicon-96x96.png";
            "public/favicon-192x192.png"; "public/favicon-32x32.png";
            "public/favicon.ico"] →
       files (world (run w).2) !! p = files w !! p).
Proof.
  intros Hframe Hout Hsrc Hall. pose proof (run_trace w) as Htr.
  destruct (run_cases w) as [Hex Hlog|pre c post st _ _ Hlog Hst|w1 _ Hsp Habs _ _].
  - rewrite Hlog in Htr, Hall. split_and!; [done|..].
    + intros p Hp. pose proof (trace_written _ _ _ p Hframe Hout Htr) as Hw.
      destruct (last_writer_Some p (map succeeded pipeline_cmds)) as (e & Hlw & He).
      { apply succeeded_destination. rewrite pipeline_destinations.
        apply list_elem_of_further. by apply list_elem_of_In, in_map, list_elem_of_In. }
      rewrite Hlw in Hw. apply Hw. by apply (proj1 (Forall_forall _ _) Hall).
    + intros p Hp. pose proof (trace_written _ _ _ p Hframe Hout Htr) as Hw.
      rewrite last_writer_None in Hw; [done|].
      apply no_destination. rewrite pipeline_destinations.
      apply not_elem_of_cons. split; [done|].
      intros Hin. apply list_elem_of_In, in_map_iff in Hin as (q & [= ->] & Hq).
      by apply Hp, list_elem_of_In.
  - rewrite Hlog in Hall. apply Forall_app in Hall as [_ Hall].
    by apply Forall_cons in Hall as [? _].
  - rewrite <-(Hframe probe_cmd w w1 0 "public/favicon.svg" Hsp), Habs in Hsrc by done.
    by destruct Hsrc.
Qed.

(** C2. In every run the three steps are attempted in the fixed order
    version query, the four conversions, the container bundling.  The
    version query is always started, first.  Once it has returned 0 and the
    source file is there, the first conversion is started; once a
    conversion has returned 0 the next command of the list is started, the
    container bundling after the last conversion.  Nothing else is ever
    started (the log is a prefix of that list); nothing is started after a
    command that could not be started or returned a non-zero status; and
    when the source file is missing at the check that follows the version
    query, nothing but the version query is started. *)
Theorem steps_in_fixed_order_stop_at_first_failure (w : World) :
  map ev_cmd (spawned (run w).2) `prefix_of`
    [probe_cmd; conversion_cmd 48; conversion_cmd 96; conversion_cmd 192;
     conversion_cmd 32; container_cmd]
  ∧ (∀ (i : nat) (e : event),
       spawned (run w).2 !! i = Some e → ev_status e ≠ Some 0 →
       spawned (run w).2 !! S i = None)
  ∧ (∀ w1 : World,
       spawn probe_cmd w = Exited 0 w1 →
       files w1 !! "public/favicon.svg" = None →
       spawned (run w).2 = [succeeded probe_cmd])
  ∧ (∃ st : option Z, spawned (run w).2 !! 0%nat = Some (Event probe_cmd st))
  ∧ (∀ w1 : World,
       spawn probe_cmd w = Exited 0 w1 →
       is_Some (files w1 !! "public/favicon.svg") →
       ∃ st : option Z,
         spawned (run w).2 !! 1%nat = Some (Event (conversion_cmd 48) st))
  ∧ (∀ (i : nat) (e : event),
       (1 ≤ i < 5)%nat →
       spawned (run w).2 !! i = Some e → ev_status e = Some 0 →
       ∃ (st : option Z) (cmd : list string),
         [probe_cmd; conversion_cmd 48; conversion_cmd 96; conversion_cmd 192;
          conversion_cmd 32; container_cmd] !! S i = Some cmd
         ∧ spawned (run w).2 !! S i = Some (Event cmd st)).
Proof.
  split_and!.
  - exact (run_log_prefix w).
  - intros i e Hi Hst.
    destruct (run_cases w) as [_ Hlog|pre c post st _ _ Hlog _|w1 _ _ _ Hlog _];
      rewrite Hlog in Hi |- *.
    + by destruct (lookup_succeeded _ _ _ Hi).
    + destruct (lookup_stopped_log _ _ _ _ _ Hi) as [(_ & _ & ?)|[-> _]]; [done|].
      apply lookup_ge_None_2. rewrite length_app, length_map. simpl. lia.
    + destruct i as [|i]; by simplify_eq/=.
  - intros w1 Hsp Habs.
    by destruct (observe_inv _ _ _ _ (run_source_absent w w1 Hsp Habs)) as (? & _ & _).
  - destruct (run_cases w) as [_ Hlog|pre c post st _ Hsplit Hlog _|w1 _ _ _ Hlog _];
      rewrite Hlog; [by eexists| |by eexists].
    destruct pre as [|c0 pre]; simpl in *.
    + injection Hsplit as <- _. by eexists.
    + injection Hsplit as <- _. by eexists.
  - intros w1 Hsp Hsrc.
    destruct (observe_inv _ _ _ _ (run_source_found w w1 Hsp Hsrc)) as (Hlog & _ & _).
    rewrite Hlog. cbn [fst snd].
    exact (chain_first (conversion_cmd 48)
             (map conversion_cmd [96; 192; 32] ++ [container_cmd]) w1).
  - intros i e Hrange Hi Hst.
    assert (∃ e', spawned (run w).2 !! S i = Some e') as [[cmd st] Hnext].
    { apply lookup_lt_is_Some.
      destruct (run_cases w) as [_ Hlog|pre c post st _ _ Hlog Hne|w1 _ _ _ Hlog _];
        rewrite Hlog in Hi |- *.
      - simpl. lia.
      - destruct (lookup_stopped_log _ _ _ _ _ Hi) as [(Hlt & _)|[_ ->]].
        + rewrite length_app, length_map. simpl. lia.
        + by destruct Hne.
      - apply lookup_lt_Some in Hi. simpl in Hi. lia. }
    exists st, cmd. split; [|done]. exact (run_log_lookup w (S i) _ Hnext).
Qed.

(** C3. The exit status is 0 exactly when all six commands were started
    and each returned 0; it is never anything but 0 or 1; and it is 1 when
    [convert] cannot be started or fails the version query, when the
    source file is missing, and when any command returns a non-zero
    status. *)
Theorem exit_status_zero_iff_every_step_succeeds (w : World) :
  (exit_status (run w).1 = 0 ↔ spawned (run w).2 = map succeeded pipeline_cmds)
  ∧ (exit_status (run w).1 = 0 ∨ exit_status (run w).1 = 1)
  ∧ (spawn probe_cmd w = ENOENT → exit_status (run w).1 = 1)
  ∧ (∀ (rc : Z) (w1 : World),
       spawn probe_cmd w = Exited rc w1 → rc ≠ 0 → exit_status (run w).1 = 1)
  ∧ (∀ w1 : World,
       spawn probe_cmd w = Exited 0 w1 →
       files w1 !! "public/favicon.svg" = None →
       exit_status (run w).1 = 1)
  ∧ (∀ (e : event) (rc : Z),
       e ∈ spawned (run w).2 → ev_status e = Some rc → rc ≠ 0 →
       exit_status (run w).1 = 1).
Proof.
  split_and!.
  - destruct (run_cases w) as [Hex Hlog|pre c post st Hex Hsplit Hlog Hst|w1 Hex _ _ Hlog _];
      rewrite Hex, Hlog.
    + done.
    + split; [done|]. intros Heq. exfalso.
      assert ((map succeeded pre ++ [Event c st]) !! length pre = Some (Event c st)) as Hi.
      { rewrite lookup_app_r by (rewrite length_map; lia).
        by rewrite length_map, Nat.sub_diag. }
      rewrite Heq in Hi. by destruct (lookup_succeeded _ _ _ Hi) as [_ ?].
    + split; [done|]. intros Heq. by apply (f_equal length) in Heq.
  - destruct (run_cases w) as [->|???? -> _ _ _|? -> _ _ _ _]; auto.
  - intros Hsp.
    by destruct (observe_inv _ _ _ _ (run_probe_not_found w Hsp)) as (_ & _ & ?).
  - intros rc w1 Hsp Hrc.
    by destruct (observe_inv _ _ _ _ (run_probe_nonzero w w1 rc Hsp Hrc)) as (_ & _ & ?).
  - intros w1 Hsp Habs.
    by destruct (observe_inv _ _ _ _ (run_source_absent w w1 Hsp Habs)) as (_ & _ & ?).
  - intros e rc He Hst Hrc.
    destruct (run_cases w) as [_ Hlog|???? Hex _ _ _|? Hex _ _ Hlog _]; [|done| ].
    + rewrite Hlog in He. apply list_elem_of_lookup in He as [i Hi].
      destruct (lookup_succeeded _ _ _ Hi) as [_ ?]. congruence.
    + done.
Qed.

(** Reads [trace_written] for the path [p] on a log that is known. *)
Local Ltac written p Hframe Hout Htr :=
  let Hw := fresh "Hw" in
  pose proof (trace_written _ _ _ p Hframe Hout Htr) as Hw;
  match type of Hw with
  | context [last_writer ?q ?log] =>
      let v := eval vm_compute in (last_writer q log) in
      change (last_writer q log) with v in Hw
  end.

(** C4, amended. When the conversion of the [k]-th size returns a non-zero
    status, the outputs of the sizes before it hold non-empty files
    (nothing is cleaned up), the outputs of the sizes after it and the
    icon container are as they were before the run (absent if they were
    absent), the failing conversion is the last command started, and the
    process exits with status 1. *)
Theorem partial_failure_keeps_earlier_outputs (w : World) (k : nat) (N rc : Z) :
  writes_only_destination → success_leaves_output →
  target_dimensions !! k = Some N →
  spawned (run w).2 !! S k = Some (Event (conversion_cmd N) (Some rc)) →
  rc ≠ 0 →
  (∀ (j : nat) (M : Z), (j < k)%nat → target_dimensions !! j = Some M →
     ∃ d : list Byte.byte,
       d ≠ [] ∧ files (world (run w).2) !! raster_path M = Some d)
  ∧ (∀ (j : nat) (M : Z), (k < j)%nat → target_dimensions !! j = Some M →
       files (world (run w).2) !! raster_path M = files w !! raster_path M)
  ∧ files (world (run w).2) !! "public/favicon.ico"
    = files w !! "public/favicon.ico"
  ∧ length (spawned (run w).2) = S (S k)
  ∧ exit_status (run w).1 = 1.
Proof.
  intros Hframe Hout Hk Hev Hrc. pose proof (run_trace w) as Htr.
  destruct (run_cases w) as [_ Hlog|pre c post st Hex Hsplit Hlog _|w1 _ _ _ Hlog _];
    rewrite Hlog in Hev, Htr.
  - destruct (lookup_succeeded _ _ _ Hev) as [_ [= ?]]. congruence.
  - destruct (lookup_stopped_log _ _ _ _ _ Hev) as [(_ & _ & [= ?])|[Hlen [= <- <-]]];
      [congruence|].
    apply split_at_length in Hsplit as Hpre. rewrite <-Hlen in Hpre.
    rewrite Hlog. clear Hlog Hev.
    unfold target_dimensions in *.
    destruct k as [|[|[|[|k]]]]; simplify_eq/=; (split_and!; [..|done|done]).
    all: try (intros j M Hj HM; destruct j as [|[|[|[|j]]]]; simplify_eq/=; try lia).
    all: written (raster_path 48) Hframe Hout Htr;
         written (raster_path 96) Hframe Hout Htr;
         written (raster_path 192) Hframe Hout Htr;
         written (raster_path 32) Hframe Hout Htr;
         written "public/favicon.ico" Hframe Hout Htr; auto.
  - by destruct k.
Qed.

(** C5. When the version query fails ([convert] cannot be started, or it
    returns a non-zero status), and when [public/favicon.svg] is absent,
    the process exits with status 1, the version query is the only
    external command ever started (no conversion), and, the version query
    writing no file, the file system is left as it was. *)
Theorem no_output_without_capability_or_source (w : World) :
  version_query_read_only →
  spawn probe_cmd w = ENOENT
  ∨ (∃ (rc : Z) (w1 : World), spawn probe_cmd w = Exited rc w1 ∧ rc ≠ 0)
  ∨ files w !! "public/favicon.svg" = None →
  exit_status (run w).1 = 1
  ∧ map ev_cmd (spawned (run w).2) = [probe_cmd]
  ∧ files (world (run w).2) = files w.
Proof.
  intros Hro Hcase.
  assert (∃ st w1, observe (run w) = ([Event probe_cmd st], w1, 1)
                   ∧ files w1 = files w) as (st & w1 & Hobs & Hfiles).
  { destruct (spawn probe_cmd w) as [|rc w1] eqn:Hsp.
    { exists None, w. by rewrite run_probe_not_found. }
    destruct (decide (rc = 0)) as [->|Hrc].
    - destruct Hcase as [?|[(rc & w1' & ? & ?)|Habs]]; [done|congruence|].
      exists (Some 0), w1. split; [|by eapply Hro].
      apply run_source_absent; [done|]. by rewrite (Hro _ _ _ Hsp).
    - exists (Some rc), w1. split; [|by eapply Hro].
      by apply run_probe_nonzero. }
  destruct (observe_inv _ _ _ _ Hobs) as (-> & -> & ->). done.
Qed.

(** C6. The conversion of the [k]-th target dimension [N], whenever it is
    started, is started with exactly the argument list
    [convert -background none -density 300 -resize NxN public/favicon.svg
    public/favicon-NxN.png]; and the loop body starts that argument list
    for any integer it is given. *)
Theorem conversion_argument_list (w : World) :
  (∀ (k : nat) (N : Z) (e : event),
     target_dimensions !! k = Some N →
     spawned (run w).2 !! S k = Some e →
     ev_cmd e =
       ["convert"; "-background"; "none"; "-density"; "300"; "-resize";
        str N +:+ "x" +:+ str N; "public/favicon.svg";
        "public/favicon-" +:+ str N +:+ "x" +:+ str N +:+ ".png"])
  ∧ (∀ (size : Z) (s : State World),
       ∃ st : option Z,
         spawned (generate_size size s).2 =
           spawned s ++
           [Event ["convert"; "-background"; "none"; "-density"; "300";
                   "-resize"; str size +:+ "x" +:+ str size;
                   "public/favicon.svg";
                   "public/favicon-" +:+ str size +:+ "x" +:+ str size +:+ ".png"]
              st]).
Proof.
  split.
  - intros k N e Hk He. apply run_log_lookup in He.
    change ((map conversion_cmd target_dimensions ++ [container_cmd]) !! k
            = Some (ev_cmd e)) in He.
    destruct (decide (k < 4)%nat) as [Hlt|Hge].
    + rewrite lookup_app_l in He by done.
      change (map conversion_cmd ?l) with (conversion_cmd <$> l) in He.
      rewrite list_lookup_fmap, Hk in He. by injection He as <-.
    + apply lookup_lt_Some in Hk. simpl in Hk. lia.
  - intros size s. rewrite generate_size_guarded, guarded_spec.
    destruct (spawn _ (world s)) as [|rc w']; [by eexists|].
    destruct (rc =? 0); by eexists.
Qed.

(** C7. The container command is started at most once, as the sixth and
    last command, after the version query and all four conversions have
    returned 0; once they have, it is started whatever the file system
    holds (its inputs are not checked); its arguments are the 32 and 48
    pixel rasters, in that order, then [public/favicon.ico]; and 32 and 48
    are the two smallest target dimensions. *)
Theorem container_built_once_from_32_and_48 (w : World) :
  (∀ (i : nat) (e : event),
     spawned (run w).2 !! i = Some e → ev_cmd e = container_cmd →
     i = 5%nat
     ∧ length (spawned (run w).2) = 6%nat
     ∧ take 5 (spawned (run w).2) =
         map succeeded [probe_cmd; conversion_cmd 48; conversion_cmd 96;
                        conversion_cmd 192; conversion_cmd 32])
  ∧ (take 5 (spawned (run w).2) =
       map succeeded [probe_cmd; conversion_cmd 48; conversion_cmd 96;
                      conversion_cmd 192; conversion_cmd 32] →
     ∃ st : option Z, spawned (run w).2 !! 5%nat = Some (Event container_cmd st))
  ∧ container_cmd =
      ["convert"; "public/favicon-32x32.png"; "public/favicon-48x48.png";
       "public/favicon.ico"]
  ∧ raster_path 32 = "public/favicon-32x32.png"
  ∧ raster_path 48 = "public/favicon-48x48.png"
  ∧ (∀ N : Z, N ∈ target_dimensions → N = 32 ∨ N = 48 ∨ 48 < N).
Proof.
  split_and!; [| |done..|].
  - intros i e Hi He. pose proof (run_log_lookup w i e Hi) as Hpos.
    rewrite He in Hpos. apply container_position in Hpos as ->.
    split; [done|].
    destruct (run_cases w) as [_ Hlog|pre c post st _ Hsplit Hlog _|w1 _ _ _ Hlog _];
      rewrite Hlog in Hi |- *; [done| |done].
    apply lookup_lt_Some in Hi as Hlen. rewrite length_app, length_map in Hlen.
    apply (f_equal length) in Hsplit as Hlen'.
    rewrite length_app in Hlen'. simpl in Hlen, Hlen'.
    assert (length pre = 5%nat) as Hpre by lia.
    apply split_at_length in Hsplit. rewrite Hpre in Hsplit. subst pre. done.
  - intros Htake.
    destruct (run_cases w) as [_ Hlog|pre c post st _ Hsplit Hlog Hst|w1 _ _ _ Hlog _];
      rewrite Hlog in Htake |- *; [by eexists| |done].
    assert ((map succeeded pre ++ [Event c st]) !! 4%nat
            = Some (succeeded (conversion_cmd 32))) as H4.
    { rewrite <-(lookup_take_lt _ 5 4), Htake by lia. done. }
    apply lookup_stopped_log in H4 as [(Hlen & _)|[_ [= _ ?]]]; [|done].
    apply (f_equal length) in Hsplit as Hlen'.
    rewrite length_app in Hlen'. simpl in Hlen'.
    assert (length pre = 5%nat) as Hpre by lia.
    apply split_at_length in Hsplit as Hpre'. rewrite Hpre in Hpre'.
    subst pre. simpl in Hsplit. injection Hsplit as <- _. by eexists.
  - unfold target_dimensions. intros N. rewrite !elem_of_cons, elem_of_nil.
    intros [->|[->|[->|[->|[]]]]]; lia.
Qed.

(** C8, amended. The conversions are started in the order 48, 96, 192, 32:
    one conversion is started before another exactly when it is not the
    legacy one (32) and the other is the legacy one or has a larger
    dimension. *)
Theorem conversions_in_declared_order (w : World)
    (i j : nat) (Ni Nj : Z) (ei ej : event) :
  Ni ∈ target_dimensions → Nj ∈ target_dimensions →
  spawned (run w).2 !! i = Some ei → spawned (run w).2 !! j = Some ej →
  ev_cmd ei = conversion_cmd Ni → ev_cmd ej = conversion_cmd Nj →
  ((i < j)%nat ↔ Ni ≠ 32 ∧ (Nj = 32 ∨ Ni < Nj)).
Proof.
  intros HNi HNj Hi Hj Hci Hcj.
  apply run_log_lookup in Hi, Hj. rewrite Hci in Hi. rewrite Hcj in Hj.
  apply conversion_position in Hi, Hj; [|done..].
  lia.
Qed.

(** C9. With a tool that is a function of its argument list and of the
    contents of its input files, a second run, started on the files the
    first run left, starts the same commands with the same outcomes, exits
    with the same status, and leaves every file, the five outputs among
    them, byte for byte as the first run left it. *)
Theorem second_run_reproduces_outputs
    (tool : list string → list (option (list Byte.byte))
            → option (Z * option (list Byte.byte)))
    (w w2 : World) :
  deterministic tool →
  files w2 = files (world (run w).2) →
  spawned (run w2).2 = spawned (run w).2
  ∧ exit_status (run w2).1 = exit_status (run w).1
  ∧ files (world (run w2).2) = files (world (run w).2).
Proof.
  intros Hdet Hw2. rewrite !run_log, !run_exit, !run_world in *.
  destruct (pipeline_rerun tool Hdet w w2 Hw2) as (? & ? & ?).
  split_and!; congruence.
Qed.

(** C10. Whether [convert --version] cannot be started or runs and returns
    a non-zero status, the script prints the same two lines (ImageMagick
    is not installed; the installation hint), prints nothing else, and
    exits with status 1. *)
Theorem missing_and_failing_tool_reported_alike (w : World) :
  spawn probe_cmd w = ENOENT
  ∨ (∃ (rc : Z) (w1 : World), spawn probe_cmd w = Exited rc w1 ∧ rc ≠ 0) →
  (run w).1 = Raised (SystemExit 1)
  ∧ stdout (run w).2 =
      ["Error: ImageMagick is not installed.";
       "Install it with: brew install imagemagick"]
  ∧ exit_status (run w).1 = 1.
Proof.
  intros Hcase.
  assert (∃ s', check_dependencies (MkState w [] []) =
                  (Raised (SystemExit 1), s')
                ∧ stdout s' = ["Error: ImageMagick is not installed.";
                               "Install it with: brew install imagemagick"])
    as (s' & Hcheck & Hout).
  { unfold check_dependencies, try_except, subprocess_run. simpl.
    fold probe_cmd.
    destruct Hcase as [->|(rc & w1 & -> & Hrc)]; [by eexists|].
    rewrite (proj2 (Z.eqb_neq _ _) Hrc). by eexists. }
  unfold run, main. by rewrite (bind_raised _ _ _ _ _ Hcheck).
Qed.

End Claims.

Lemma partial_failure_with_leftover_output :
  ¬ partial_failure_as_stated leftover_192.
Proof.
  intros Hclaim.
  destruct (Hclaim 1%nat 96 1) as (_ & Hlater & _); [done|by vm_compute|done|].
  specialize (Hlater 2%nat 192). 
  assert (files (world (run leftover_192).2) !! raster_path 192
          = Some (String.list_byte_of_string "old")) as Hold by (by vm_compute).
  rewrite Hlater in Hold; [done|lia|done].
Qed.

Lemma legacy_conversion_comes_last :
  ¬ size_ascending (spawned (run (fresh true [])).2).
Proof.
  intros Hasc.
  specialize (Hasc 4%nat 1%nat 32 48 (succeeded (conversion_cmd 32))
                (succeeded (conversion_cmd 48))).
  assert (4 < 1)%nat; [|lia].
  apply Hasc; try done; try (by vm_compute).
  - unfold target_dimensions. set_solver.
  - unfold target_dimensions. set_solver.
Qed.

(** * Runs on the simulated hosts *)

(** [convert] installed and working, on a fresh checkout. *)
Lemma five_outputs_on_success_witness :
  exit_status (run (fresh true [])).1 = 0
  ∧ (∀ p : string,
       p ∈ ["public/favicon-48x48.png"; "public/favicon-96x96.png";
            "public/favicon-192x192.png"; "public/favicon-32x32.png";
            "public/favicon.ico"] →
       ∃ d : list Byte.byte,
         d ≠ [] ∧ files (world (run (fresh true [])).2) !! p = Some d)
  ∧ (∀ p : string,
       p ∉ ["public/favicon-48x48.png"; "public/favicon-96x96.png";
            "public/favicon-192x192.png"; "public/favicon-32x32.png";
            "public/favicon.ico"] →
       files (world (run (fresh true [])).2) !! p = files (fresh true []) !! p).
Proof.
  apply (five_outputs_on_success (fresh true [])).
  - exact sim_writes_only_destination.
  - exact sim_success_leaves_output.
  - exists svg_bytes. reflexivity.
  - vm_compute. repeat constructor.
Defined.

(** The 96 pixel conversion fails: nothing is started after it. *)
Lemma steps_in_fixed_order_stop_at_first_failure_witness :
  spawned (run (fresh true [conversion_cmd 96])).2 !! 3%nat = None.
Proof.
  apply (proj1 (proj2 (steps_in_fixed_order_stop_at_first_failure
                         (fresh true [conversion_cmd 96])))
           2%nat (Event (conversion_cmd 96) (Some 1))).
  - vm_compute. reflexivity.
  - simpl. discriminate.
Defined.

Lemma exit_status_zero_iff_every_step_succeeds_witness :
  exit_status (run (fresh true [conversion_cmd 96])).1 = 1.
Proof.
  apply (proj2 (proj2 (proj2 (proj2 (proj2
           (exit_status_zero_iff_every_step_succeeds
              (fresh true [conversion_cmd 96]))))))
           (Event (conversion_cmd 96) (Some 1)) 1).
  - apply list_elem_of_lookup. exists 2%nat. vm_compute. reflexivity.
  - reflexivity.
  - lia.
Defined.

Lemma partial_failure_keeps_earlier_outputs_witness :
  (∀ (j : nat) (M : Z), (j < 1)%nat → target_dimensions !! j = Some M →
     ∃ d : list Byte.byte,
       d ≠ []
       ∧ files (world (run (fresh true [conversion_cmd 96])).2) !! raster_path M
         = Some d)
  ∧ (∀ (j : nat) (M : Z), (1 < j)%nat → target_dimensions !! j = Some M →
       files (world (run (fresh true [conversion_cmd 96])).2) !! raster_path M
       = files (fresh true [conversion_cmd 96]) !! raster_path M)
  ∧ files (world (run (fresh true [conversion_cmd 96])).2) !! "public/favicon.ico"
    = files (fresh true [conversion_cmd 96]) !! "public/favicon.ico"
  ∧ length (spawned (run (fresh true [conversion_cmd 96])).2) = 3%nat
  ∧ exit_status (run (fresh true [conversion_cmd 96])).1 = 1.
Proof.
  apply (partial_failure_keeps_earlier_outputs
           (fresh true [conversion_cmd 96]) 1%nat 96 1).
  - exact sim_writes_only_destination.
  - exact sim_success_leaves_output.
  - reflexivity.
  - vm_compute. reflexivity.
  - lia.
Defined.

(** [convert] is not installed. *)
Lemma no_output_without_capability_or_source_witness :
  exit_status (run (fresh false [])).1 = 1
  ∧ map ev_cmd (spawned (run (fresh false [])).2) = [probe_cmd]
  ∧ files (world (run (fresh false [])).2) = files (fresh false []).
Proof.
  apply (no_output_without_capability_or_source (fresh false [])).
  - exact sim_version_query_read_only.
  - left. reflexivity.
Defined.

Lemma conversion_argument_list_witness :
  ev_cmd (succeeded (conversion_cmd 96)) =
    ["convert"; "-background"; "none"; "-density"; "300"; "-resize";
     "96x96"; "public/favicon.svg"; "public/favicon-96x96.png"].
Proof.
  apply (proj1 (conversion_argument_list (fresh true [])) 1%nat 96).
  - reflexivity.
  - vm_compute. reflexivity.
Defined.

Lemma container_built_once_from_32_and_48_witness :
  5%nat = 5%nat
  ∧ length (spawned (run (fresh true [])).2) = 6%nat
  ∧ take 5 (spawned (run (fresh true [])).2) =
      map succeeded [probe_cmd; conversion_cmd 48; conversion_cmd 96;
                     conversion_cmd 192; conversion_cmd 32].
Proof.
  apply (proj1 (container_built_once_from_32_and_48 (fresh true []))
           5%nat (succeeded container_cmd)).
  - vm_compute. reflexivity.
  - reflexivity.
Defined.

Lemma conversions_in_declared_order_witness :
  (1 < 4)%nat ↔ 48 ≠ 32 ∧ (32 = 32 ∨ 48 < 32).
Proof.
  apply (conversions_in_declared_order (fresh true []) 1%nat 4%nat 48 32
           (succeeded (conversion_cmd 48)) (succeeded (conversion_cmd 32))).
  - unfold target_dimensions. rewrite !elem_of_cons. auto.
  - unfold target_dimensions. rewrite !elem_of_cons. auto 6.
  - vm_compute. reflexivity.
  - vm_compute. reflexivity.
  - reflexivity.
  - reflexivity.
Defined.

(** Twice in a row on the file-system-only host. *)
Lemma second_run_reproduces_outputs_witness :
  spawned (run (world (run fresh_disk).2)).2 = spawned (run fresh_disk).2
  ∧ exit_status (run (world (run fresh_disk).2)).1 = exit_status (run fresh_disk).1
  ∧ files (world (run (world (run fresh_disk).2)).2)
    = files (world (run fresh_disk).2).
Proof.
  apply (second_run_reproduces_outputs disk_tool fresh_disk
           (world (run fresh_disk).2)).
  - exact disk_deterministic.
  - reflexivity.
Defined.

Lemma missing_and_failing_tool_reported_alike_witness :
  (run (fresh false [])).1 = Raised (SystemExit 1)
  ∧ stdout (run (fresh false [])).2 =
      ["Error: ImageMagick is not installed.";
       "Install it with: brew install imagemagick"]
  ∧ exit_status (run (fresh false [])).1 = 1.
Proof.
  apply (missing_and_failing_tool_reported_alike (fresh false [])).
  left. reflexivity.
Defined.

(** * The console and the exceptions *)

Lemma all_succeeded_succeeded (cmds : list (list string)) :
  all_succeeded (map succeeded cmds) = true.
Proof. induction cmds as [|c cmds IH]; [done|]. simpl. by rewrite IH. Qed.

Lemma all_succeeded_stopped pre cmd st :
  st ≠ Some 0 → all_succeeded (map succeeded pre ++ [Event cmd st]) = false.
Proof.
  intros Hst. induction pre as [|c pre IH]; simpl.
  - by rewrite bool_decide_eq_false_2.
  - by rewrite IH.
Qed.

Section ConsoleLemmas.

Context {World : Type} `{Host World}.

(** A chain that goes through logs one entry per command. *)
Lemma chain_reaches (cmds : list (list string)) (w : World) :
  reaches (length cmds) (chain cmds w).1.1 = (chain cmds w).2
  ∧ take (length cmds) (chain cmds w).1.1 = (chain cmds w).1.1.
Proof.
  unfold reaches.
  destruct (chain_shape cmds w)
    as [[-> ->]|(-> & pre & c & post & st & -> & -> & Hst)].
  - rewrite <-(length_map succeeded cmds), take_ge by done.
    rewrite all_succeeded_succeeded. by rewrite bool_decide_eq_true_2.
  - assert (length (map succeeded pre ++ [Event c st])
            ≤ length (pre ++ c :: post))%nat as Hlen.
    { rewrite !length_app, length_map. simpl. lia. }
    rewrite take_ge by done. by rewrite all_succeeded_stopped.
Qed.

Lemma says_seq m1 m2 c1 c2 say1 say2 raised1 raised2 :
  says m1 c1 say1 raised1 → says m2 c2 say2 raised2 →
  says (m1 ;; m2) (c1 ++ c2)
    (say_seq (length c1) say1 say2) (raised_seq (length c1) raised1 raised2).
Proof.
  intros H1 H2 s. unfold mbind, Py_bind. rewrite H1, chain_app.
  destruct (chain_reaches c1 (world s)) as [Hreach Htake].
  destruct (chain_shape c1 (world s)) as [[Hok Hev]|(Hok & _)].
  - unfold say_seq, raised_seq, reaches.
    assert (length (chain c1 (world s)).1.1 = length c1) as Hlen
      by (by rewrite Hev, length_map).
    rewrite Hok. cbn [fst snd]. rewrite H2. cbn [world stdout spawned].
    rewrite take_app_length', drop_app_length' by done.
    rewrite length_app, Hlen, Hev, all_succeeded_succeeded.
    rewrite bool_decide_eq_true_2 by lia. cbn [andb].
    by rewrite !(assoc_L (++)).
  - unfold say_seq, raised_seq. rewrite Hok, Hreach, Hok, Htake.
    by rewrite app_nil_r.
Qed.

Lemma says_guarded cmd ok failed :
  says (guarded cmd ok failed) [cmd] (say_guarded ok failed) raised_guarded.
Proof.
  intros s. rewrite guarded_spec, chain_single.
  destruct (spawn cmd (world s)) as [|rc w']; simpl; [by rewrite app_nil_r|].
  by destruct (rc =? 0).
Qed.

Lemma says_print line raised : says (print line) [] (say_line line) raised.
Proof. intros [w out evs]. unfold print. simpl. by rewrite app_nil_r. Qed.

Lemma says_ret raised : says (mret ()) [] say_nothing raised.
Proof. intros [w out evs]. unfold mret, Py_ret. simpl. by rewrite !app_nil_r. Qed.

End ConsoleLemmas.

Lemma reaches_0 (evs : list event) : reaches 0 evs = true.
Proof. reflexivity. Qed.

Section Transcript.

Context {World : Type} `{Host World}.

Lemma chain_logs_something cmd (rest : list (list string)) (w : World) :
  (chain (cmd :: rest) w).1.1 ≠ [].
Proof.
  simpl. destruct (spawn cmd w) as [|rc w']; [done|].
  destruct (rc =? 0); [|done]. by destruct (chain rest w') as [[??]?].
Qed.

Lemma says_banner raised :
  says
    (print (newline +:+ "✅ All favicons generated successfully!") ;;
     print (newline +:+ "Next steps:") ;;
     print "1. Update layout.tsx to reference the new PNG files" ;;
     print "2. Deploy your changes" ;;
     print "3. Request re-indexing in Google Search Console" ;;
     print "4. Wait 1-3 weeks for Google to update")
    [] (λ _, banner) raised.
Proof.
  intros [w out evs]. unfold mbind, Py_bind, print, banner. simpl.
  by rewrite app_nil_r, <-!(assoc_L (++)).
Qed.

(** [generate_png_favicons] past the source check, then the end of the main
    block. *)
Lemma says_conversions_and_banner :
  says
    ((for_each sizes generate_size ;; generate_legacy ;; generate_ico) ;;
     print (newline +:+ "✅ All favicons generated successfully!") ;;
     print (newline +:+ "Next steps:") ;;
     print "1. Update layout.tsx to reference the new PNG files" ;;
     print "2. Deploy your changes" ;;
     print "3. Request re-indexing in Google Search Console" ;;
     print "4. Wait 1-3 weeks for Google to update")
    (map conversion_cmd target_dimensions ++ [container_cmd])
    console uncaught.
Proof.
  assert (says (for_each sizes generate_size)
            [conversion_cmd 48; conversion_cmd 96; conversion_cmd 192]
            (say_seq 1 (say_conversion (raster_path 48))
               (say_seq 1 (say_conversion (raster_path 96))
                  (say_seq 1 (say_conversion (raster_path 192)) say_nothing)))
            (raised_seq 1 raised_guarded
               (raised_seq 1 raised_guarded
                  (raised_seq 1 raised_guarded raised_guarded)))) as Hloop.
  { simpl. rewrite !generate_size_guarded.
    apply (says_seq _ _ [_] [_; _]); [apply says_guarded|].
    apply (says_seq _ _ [_] [_]); [apply says_guarded|].
    apply (says_seq _ _ [_] []); [apply says_guarded|apply says_ret]. }
  assert (says (generate_legacy ;; generate_ico)
            [conversion_cmd 32; container_cmd]
            (say_seq 1 (say_conversion "public/favicon-32x32.png")
               (say_seq 0
                  (say_line (newline +:+ "Generating favicon.ico with multiple sizes..."))
                  say_container))
            (raised_seq 1 raised_guarded
               (raised_seq 0 raised_guarded raised_guarded))) as Hrest.
  { apply (says_seq _ _ [_] [_]).
    - rewrite generate_legacy_guarded. apply says_guarded.
    - apply (says_seq _ _ [] [_]); [apply says_print|].
      apply (says_guarded container_cmd "✓ Generated public/favicon.ico"
               (λ e, "✗ Failed to generate favicon.ico: " +:+ exn_str e)). }
  pose proof (says_seq _ _ _ _ _ _ _ _
                (says_seq _ _ _ _ _ _ _ _ Hloop Hrest)
                (says_banner raised_guarded)) as Hall.
  intros s. specialize (Hall s). rewrite app_nil_r in Hall. exact Hall.
Qed.

(** What a run prints and how it ends, from its log alone. *)
Lemma run_transcript (w : World) :
  stdout (run w).2 = transcript (spawned (run w).2)
  ∧ (run w).1 = ending (spawned (run w).2).
Proof.
  unfold run, main.
  assert (check_dependencies (MkState w [] []) =
            match spawn probe_cmd w with
            | ENOENT =>
                (Raised (SystemExit 1),
                 MkState w ["Error: ImageMagick is not installed.";
                            "Install it with: brew install imagemagick"]
                   [Event probe_cmd None])
            | Exited rc w1 =>
                if rc =? 0
                then (Normal (), MkState w1 [] [Event probe_cmd (Some rc)])
                else (Raised (SystemExit 1),
                      MkState w1 ["Error: ImageMagick is not installed.";
                                  "Install it with: brew install imagemagick"]
                        [Event probe_cmd (Some rc)])
            end) as Hcheck.
  { unfold check_dependencies, try_except, subprocess_run. simpl. fold probe_cmd.
    destruct (spawn probe_cmd w) as [|rc w1]; [done|]. by destruct (rc =? 0). }
  destruct (spawn probe_cmd w) as [|rc w1].
  { by rewrite (bind_raised _ _ _ _ _ Hcheck). }
  destruct (Z.eqb_spec rc 0) as [->|Hrc].
  2: { rewrite (bind_raised _ _ _ _ _ Hcheck). simpl.
       rewrite bool_decide_eq_false_2; [done|congruence]. }
  rewrite (bind_normal _ _ _ _ _ Hcheck).
  destruct (source_present w1) eqn:Hsrc.
  - rewrite (bind_same generate_png_favicons
               (for_each sizes generate_size ;; generate_legacy ;; generate_ico))
      by (by apply generate_png_favicons_present).
    rewrite says_conversions_and_banner. cbn [world stdout spawned fst snd app].
    pose proof (chain_logs_something (conversion_cmd 48)
                  (map conversion_cmd [96; 192; 32] ++ [container_cmd]) w1) as Hne.
    pose proof (chain_reaches (map conversion_cmd target_dimensions ++ [container_cmd])
                  w1) as [Hreach _].
    change (chain (conversion_cmd 48 :: map conversion_cmd [96; 192; 32] ++ [container_cmd]) w1)
      with (chain (map conversion_cmd target_dimensions ++ [container_cmd]) w1) in Hne.
    destruct (chain _ w1) as [[evs wf] ok]. cbn [fst snd] in *.
    change (length _) with 5%nat in Hreach.
    unfold transcript, ending. rewrite bool_decide_eq_true_2 by done.
    destruct evs as [|e evs]; [done|]. by rewrite Hreach.
  - rewrite (bind_raised _ _ _ _ _
               (generate_png_favicons_absent (MkState w1 [] [Event probe_cmd (Some 0)]) Hsrc)).
    done.
Qed.

End Transcript.

Lemma stopped_position pre cmd post :
  pipeline_cmds = pre ++ cmd :: post →
  ∃ i : nat,
    (i < 6)%nat ∧ pre = take i pipeline_cmds ∧ pipeline_cmds !! i = Some cmd.
Proof.
  intros Hsplit. exists (length pre). split_and!.
  - apply (f_equal length) in Hsplit. rewrite length_app in Hsplit.
    simpl in Hsplit. lia.
  - by eapply split_at_length.
  - rewrite Hsplit. by rewrite lookup_app_r, Nat.sub_diag by lia.
Qed.

Section Console_properties.

Context {World : Type} `{Host World}.

(** Every way a run can go, with the log spelled out: the log of a stopped
    run is that of the commands before the failing one, each with status
    0, then the failing one, which either could not be started or returned
    a positive or a negative status. *)
Local Ltac run_by_cases w Hex Hlog :=
  let pre := fresh "pre" in let c := fresh "c" in
  let post := fresh "post" in let st := fresh "st" in
  let Hsplit := fresh "Hsplit" in let Hst := fresh "Hst" in
  let i := fresh "i" in let Hi := fresh "Hi" in
  let Hc := fresh "Hc" in let rc := fresh "rc" in
  destruct (run_cases w) as [Hex Hlog|pre c post st Hex Hsplit Hlog Hst|? Hex _ _ Hlog _];
  [ |
    destruct (stopped_position _ _ _ Hsplit) as (i & Hi & -> & Hc);
    clear Hsplit;
    destruct i as [|[|[|[|[|[|i]]]]]]; [| | | | | |lia];
    vm_compute in Hc; injection Hc as <-;
    (destruct st as [[|rc|rc]|]; [done| | |]) | ].

(** X1. A run that exits with status 0 returns normally and has printed
    exactly twelve lines: the four confirmations in the order 48, 96, 192,
    32, the container announcement and its confirmation, and the six
    closing lines. *)
Theorem console_of_a_successful_run (w : World) :
  exit_status (run w).1 = 0 →
  (run w).1 = Normal ()
  ∧ stdout (run w).2 =
      ["✓ Generated public/favicon-48x48.png";
       "✓ Generated public/favicon-96x96.png";
       "✓ Generated public/favicon-192x192.png";
       "✓ Generated public/favicon-32x32.png";
       newline +:+ "Generating favicon.ico with multiple sizes...";
       "✓ Generated public/favicon.ico";
       newline +:+ "✅ All favicons generated successfully!";
       newline +:+ "Next steps:";
       "1. Update layout.tsx to reference the new PNG files";
       "2. Deploy your changes";
       "3. Request re-indexing in Google Search Console";
       "4. Wait 1-3 weeks for Google to update"].
Proof.
  intros Hzero. destruct (run_transcript w) as [Hout Hres].
  run_by_cases w Hex Hlog; try congruence.
  rewrite Hout, Hres, Hlog. split; by vm_compute.
Qed.

(** X2. When [convert] answers the version query and [public/favicon.svg]
    is missing, the script prints one line, naming the missing path, and
    ends by [sys.exit(1)]. *)
Theorem missing_source_is_named (w w1 : World) :
  spawn probe_cmd w = Exited 0 w1 →
  files w1 !! "public/favicon.svg" = None →
  (run w).1 = Raised (SystemExit 1)
  ∧ stdout (run w).2 = ["Error: public/favicon.svg not found"].
Proof.
  intros Hsp Habs. destruct (run_transcript w) as [Hout Hres].
  destruct (observe_inv _ _ _ _ (run_source_absent w w1 Hsp Habs)) as (Hlog & _ & _).
  rewrite Hout, Hres, Hlog. split; by vm_compute.
Qed.

(** X3. When the conversion of the [k]-th size [N] returns a non-zero
    status, the script has printed the confirmations of the sizes before
    it, then one failure line made of the output path of [N] and the text
    of the [CalledProcessError], and nothing more; it ends by
    [sys.exit(1)]. *)
Theorem failed_conversion_is_reported (w : World) (k : nat) (N rc : Z) :
  target_dimensions !! k = Some N →
  spawned (run w).2 !! S k = Some (Event (conversion_cmd N) (Some rc)) →
  rc ≠ 0 →
  (run w).1 = Raised (SystemExit 1)
  ∧ stdout (run w).2 =
      map (λ M, "✓ Generated " +:+ raster_path M) (take k target_dimensions)
      ++ ["✗ Failed to generate " +:+ raster_path N +:+ ": "
          +:+ CalledProcessError_str (conversion_cmd N) rc].
Proof.
  intros Hk Hev Hrc. destruct (run_transcript w) as [Hout Hres].
  unfold target_dimensions in Hk.
  destruct k as [|[|[|[|k]]]]; simplify_eq/=.
  all: run_by_cases w Hex Hlog; rewrite Hlog in Hev; vm_compute in Hev;
       try discriminate Hev; injection Hev as Hev; try discriminate Hev;
       subst rc; rewrite Hout, Hres, Hlog; split; by vm_compute.
Qed.

(** X4. When the container command returns a non-zero status, the script
    has printed the four confirmations and the announcement, then one
    failure line that names [favicon.ico] without its directory; it ends by
    [sys.exit(1)]. *)
Theorem failed_container_is_reported (w : World) (rc : Z) :
  spawned (run w).2 !! 5%nat = Some (Event container_cmd (Some rc)) →
  rc ≠ 0 →
  (run w).1 = Raised (SystemExit 1)
  ∧ stdout (run w).2 =
      ["✓ Generated public/favicon-48x48.png";
       "✓ Generated public/favicon-96x96.png";
       "✓ Generated public/favicon-192x192.png";
       "✓ Generated public/favicon-32x32.png";
       newline +:+ "Generating favicon.ico with multiple sizes...";
       "✗ Failed to generate favicon.ico: "
       +:+ CalledProcessError_str container_cmd rc].
Proof.
  intros Hev Hrc. destruct (run_transcript w) as [Hout Hres].
  run_by_cases w Hex Hlog; rewrite Hlog in Hev; vm_compute in Hev;
    try discriminate Hev; injection Hev as Hev; try discriminate Hev;
    subst rc; try done; rewrite Hout, Hres, Hlog; split; by vm_compute.
Qed.

(** X5. When a command after the version query cannot be started, no
    handler of [generate_png_favicons] catches the [FileNotFoundError]: the
    run ends with that exception, not with [sys.exit], the exit status is 1,
    and no failure line is printed: the console holds the confirmations of
    the commands before it, and the announcement if it is the container
    command. *)
Theorem vanished_tool_is_not_reported (w : World) (i : nat) (cmd : list string) :
  (0 < i)%nat →
  spawned (run w).2 !! i = Some (Event cmd None) →
  (run w).1 = Raised (FileNotFoundError "convert")
  ∧ exit_status (run w).1 = 1
  ∧ stdout (run w).2 =
      map (λ M, "✓ Generated " +:+ raster_path M)
        (take (i - 1) target_dimensions)
      ++ (if bool_decide (i = 5%nat)
          then [newline +:+ "Generating favicon.ico with multiple sizes..."]
          else []).
Proof.
  intros Hpos Hev. destruct (run_transcript w) as [Hout Hres].
  destruct i as [|[|[|[|[|[|i]]]]]]; [lia|..].
  all: run_by_cases w Hex Hlog; rewrite Hlog in Hev; vm_compute in Hev;
       try discriminate Hev;
       rewrite Hex, Hout, Hres, Hlog; split_and!; by vm_compute.
Qed.

(** X6. The line announcing success is on the console exactly when the
    exit status is 0. *)
Theorem success_line_iff_exit_status_zero (w : World) :
  (newline +:+ "✅ All favicons generated successfully!") ∈ stdout (run w).2
  ↔ exit_status (run w).1 = 0.
Proof.
  destruct (run_transcript w) as [Hout _].
  run_by_cases w Hex Hlog; rewrite Hex, Hout, Hlog.
  1: { split; [done|]. intros _. vm_compute. do 6 apply list_elem_of_further.
       apply list_elem_of_here. }
  all: split; [|done]; intros Hin; vm_compute in Hin;
       repeat (apply elem_of_cons in Hin as [Hin|Hin]; [discriminate Hin|]);
       by apply elem_of_nil in Hin.
Qed.

(** X7. In every run, whatever its outcome, a path other than the five
    output paths is as it was before the run; in particular the source
    file is never written. *)
Theorem only_output_paths_are_written (w : World) :
  writes_only_destination →
  (∀ p : string,
     p ∉ ["public/favicon-48x48.png"; "public/favicon-96x96.png";
          "public/favicon-192x192.png"; "public/favicon-32x32.png";
          "public/favicon.ico"] →
     files (world (run w).2) !! p = files w !! p)
  ∧ files (world (run w).2) !! "public/favicon.svg"
    = files w !! "public/favicon.svg".
Proof.
  intros Hframe.
  assert (∀ p : string, p ∉ output_paths →
            files (world (run w).2) !! p = files w !! p) as Hothers.
  { intros p Hp. apply (trace_frame _ _ _ _ Hframe (run_trace w)), Forall_forall.
    intros e He Hd. apply list_elem_of_lookup in He as [i Hi].
    apply run_log_lookup in Hi.
    assert (Some p ∈ map destination pipeline_cmds) as Hin.
    { rewrite <-Hd. apply list_elem_of_In, in_map, list_elem_of_In.
      by eapply list_elem_of_lookup_2. }
    rewrite pipeline_destinations in Hin.
    apply elem_of_cons in Hin as [Hin|Hin]; [done|].
    apply list_elem_of_In, in_map_iff in Hin as (q & [= ->] & Hq).
    by apply Hp, list_elem_of_In. }
  split; [exact Hothers|]. apply Hothers. unfold output_paths.
  rewrite !not_elem_of_cons. split_and!; try done. apply not_elem_of_nil.
Qed.

(** X10. No run starts more than six external commands, and none starts
    the same command line twice: nothing is retried. *)
Theorem no_command_is_retried (w : World) :
  (length (spawned (run w).2) ≤ 6)%nat
  ∧ NoDup (map ev_cmd (spawned (run w).2)).
Proof.
  destruct (run_log_prefix w) as [rest Hrest].
  assert (NoDup pipeline_cmds) as Hnodup.
  { apply (bool_decide_unpack (NoDup pipeline_cmds)). by vm_compute. }
  split.
  - apply (f_equal length) in Hrest. rewrite length_app, length_map in Hrest.
    change (length pipeline_cmds) with 6%nat in Hrest. lia.
  - rewrite Hrest in Hnodup. by apply NoDup_app in Hnodup as [? _].
Qed.

(** X11. No [CalledProcessError] escapes a run: every [subprocess.run] of
    the script sits in a [try] whose handler catches it; and whenever a run
    ends by [sys.exit], the code is 1. *)
Theorem no_called_process_error_escapes (w : World) :
  (∀ (cmd : list string) (rc : Z),
     (run w).1 ≠ Raised (CalledProcessError cmd rc))
  ∧ (∀ code : Z, (run w).1 = Raised (SystemExit code) → code = 1).
Proof.
  destruct (run_transcript w) as [_ Hres].
  run_by_cases w Hex Hlog; rewrite Hres, Hlog; vm_compute;
    (split; [intros cmd rc' [=]|intros code [=]]; done).
Qed.

(** Reads [trace_written] for the path [p] on a log that is known. *)
Local Ltac holds_file p Hframe Hwrites Htr :=
  let Hw := fresh "Hw" in
  pose proof (trace_written _ _ _ p Hframe Hwrites Htr) as Hw;
  match type of Hw with
  | context [last_writer ?q ?log] =>
      let v := eval vm_compute in (last_writer q log) in
      change (last_writer q log) with v in Hw
  end;
  apply Hw; reflexivity.

(** X8. A confirmation is never wrong: with a tool that writes its
    destination when it returns 0 and nothing but its destination, every
    path the console confirms as generated holds a non-empty file when the
    process ends, however the run ends. *)
Theorem confirmed_outputs_exist (w : World) (p : string) :
  writes_only_destination → success_leaves_output →
  ("✓ Generated " +:+ p) ∈ stdout (run w).2 →
  ∃ d : list Byte.byte, d ≠ [] ∧ files (world (run w).2) !! p = Some d.
Proof.
  intros Hframe Hwrites Hin. pose proof (run_trace w) as Htr.
  destruct (run_transcript w) as [Hout _]. rewrite Hout in Hin. clear Hout.
  run_by_cases w Hex Hlog; rewrite Hlog in Hin, Htr; vm_compute in Hin.
  all: repeat (apply elem_of_cons in Hin as [Hin|Hin];
               [try discriminate Hin; injection Hin as ->;
                holds_file ltac:(lazymatch goal with
                                 | |- context [_ !! ?q] => q end)
                  Hframe Hwrites Htr|]).
  all: by apply elem_of_nil in Hin.
Qed.

End Console_properties.

(** ** Output paths *)

Lemma string_length_app (s1 s2 : string) :
  String.length (s1 +:+ s2) = (String.length s1 + String.length s2)%nat.
Proof. induction s1 as [|a s1 IH]; simpl; [done|]. by rewrite IH. Qed.

Lemma string_app_inj_length (s1 s2 t1 t2 : string) :
  String.length s1 = String.length s2 → s1 +:+ t1 = s2 +:+ t2 → s1 = s2.
Proof.
  revert s2. induction s1 as [|a s1 IH]; intros [|b s2] Hlen Heq;
    simplify_eq/=; [done|]. f_equal. by eapply IH.
Qed.

(** X9. The output path is an injective function of the size: for any two
    different integers the loop body names two different output files, so
    no conversion overwrites the output of another, and its command lines
    differ; and the file a conversion command names as destination is that
    output path. *)
Theorem distinct_sizes_distinct_outputs (N M : Z) :
  N ≠ M →
  raster_path N ≠ raster_path M
  ∧ conversion_cmd N ≠ conversion_cmd M
  ∧ destination (conversion_cmd N) = Some (raster_path N).
Proof.
  intros Hne.
  assert (raster_path N ≠ raster_path M) as Hpath.
  { intros Heq. apply Hne, (inj pretty).
    unfold raster_path in Heq. apply (inj (String.append _)) in Heq.
    eapply string_app_inj_length; [|exact Heq].
    apply (f_equal String.length) in Heq.
    rewrite !string_length_app in Heq. simpl in Heq. unfold str in *. lia. }
  split_and!; [done| |done].
  intros Heq. apply Hpath. unfold conversion_cmd in Heq. by simplify_eq.
Qed.

(** ** Runs on the simulated hosts *)

Example run_with_vanishing_tool :
  (run (fading 2)).1 = Raised (FileNotFoundError "convert")
  ∧ stdout (run (fading 2)).2 = ["✓ Generated public/favicon-48x48.png"]
  ∧ map ev_status (spawned (run (fading 2)).2) = [Some 0; Some 0; None].
Proof. by vm_compute. Qed.

Lemma console_of_a_successful_run_witness :
  (run (fresh true [])).1 = Normal ()
  ∧ stdout (run (fresh true [])).2 =
      ["✓ Generated public/favicon-48x48.png";
       "✓ Generated public/favicon-96x96.png";
       "✓ Generated public/favicon-192x192.png";
       "✓ Generated public/favicon-32x32.png";
       newline +:+ "Generating favicon.ico with multiple sizes...";
       "✓ Generated public/favicon.ico";
       newline +:+ "✅ All favicons generated successfully!";
       newline +:+ "Next steps:";
       "1. Update layout.tsx to reference the new PNG files";
       "2. Deploy your changes";
       "3. Request re-indexing in Google Search Console";
       "4. Wait 1-3 weeks for Google to update"].
Proof.
  apply (console_of_a_successful_run (fresh true [])).
  vm_compute. reflexivity.
Defined.

Lemma missing_source_is_named_witness :
  (run (MkSim ∅ true [])).1 = Raised (SystemExit 1)
  ∧ stdout (run (MkSim ∅ true [])).2 = ["Error: public/favicon.svg not found"].
Proof.
  apply (missing_source_is_named (MkSim ∅ true []) (MkSim ∅ true [])).
  - reflexivity.
  - reflexivity.
Defined.

Lemma failed_conversion_is_reported_witness :
  (run (fresh true [conversion_cmd 96])).1 = Raised (SystemExit 1)
  ∧ stdout (run (fresh true [conversion_cmd 96])).2 =
      map (λ M, "✓ Generated " +:+ raster_path M) (take 1 target_dimensions)
      ++ ["✗ Failed to generate " +:+ raster_path 96 +:+ ": "
          +:+ CalledProcessError_str (World := Sim) (conversion_cmd 96) 1].
Proof.
  apply (failed_conversion_is_reported (fresh true [conversion_cmd 96]) 1%nat 96 1).
  - reflexivity.
  - vm_compute. reflexivity.
  - lia.
Defined.

Lemma failed_container_is_reported_witness :
  (run (fresh true [container_cmd])).1 = Raised (SystemExit 1)
  ∧ stdout (run (fresh true [container_cmd])).2 =
      ["✓ Generated public/favicon-48x48.png";
       "✓ Generated public/favicon-96x96.png";
       "✓ Generated public/favicon-192x192.png";
       "✓ Generated public/favicon-32x32.png";
       newline +:+ "Generating favicon.ico with multiple sizes...";
       "✗ Failed to generate favicon.ico: "
       +:+ CalledProcessError_str (World := Sim) container_cmd 1].
Proof.
  apply (failed_container_is_reported (fresh true [container_cmd]) 1).
  - vm_compute. reflexivity.
  - lia.
Defined.

Lemma vanished_tool_is_not_reported_witness :
  (run (fading 2)).1 = Raised (FileNotFoundError "convert")
  ∧ exit_status (run (fading 2)).1 = 1
  ∧ stdout (run (fading 2)).2 =
      map (λ M, "✓ Generated " +:+ raster_path M)
        (take (2 - 1) target_dimensions)
      ++ (if bool_decide (2%nat = 5%nat)
          then [newline +:+ "Generating favicon.ico with multiple sizes..."]
          else []).
Proof.
  apply (vanished_tool_is_not_reported (fading 2) 2%nat (conversion_cmd 96)).
  - lia.
  - vm_compute. reflexivity.
Defined.

Lemma only_output_paths_are_written_witness :
  (∀ p : string,
     p ∉ ["public/favicon-48x48.png"; "public/favicon-96x96.png";
          "public/favicon-192x192.png"; "public/favicon-32x32.png";
          "public/favicon.ico"] →
     files (world (run (fresh true [conversion_cmd 192])).2) !! p
     = files (fresh true [conversion_cmd 192]) !! p)
  ∧ files (world (run (fresh true [conversion_cmd 192])).2) !! "public/favicon.svg"
    = files (fresh true [conversion_cmd 192]) !! "public/favicon.svg".
Proof.
  apply (only_output_paths_are_written (fresh true [conversion_cmd 192])).
  exact sim_writes_only_destination.
Defined.

Lemma confirmed_outputs_exist_witness :
  ∃ d : list Byte.byte,
    d ≠ []
    ∧ files (world (run (fresh true [conversion_cmd 96])).2)
        !! "public/favicon-48x48.png" = Some d.
Proof.
  apply (confirmed_outputs_exist (fresh true [conversion_cmd 96])
           "public/favicon-48x48.png").
  - exact sim_writes_only_destination.
  - exact sim_success_leaves_output.
  - vm_compute. apply list_elem_of_here.
Defined.

Lemma distinct_sizes_distinct_outputs_witness :
  raster_path 48 ≠ raster_path 96
  ∧ conversion_cmd 48 ≠ conversion_cmd 96
  ∧ destination (conversion_cmd 48) = Some (raster_path 48).
Proof.
  apply (distinct_sizes_distinct_outputs 48 96). lia.
Defined.
